(** * InTube notification pipeline: a shallow embedding and its properties

    The definitions below transcribe the JavaScript of
    [notification_system.md] (the native-WebSocket fan-out, the event
    emitter and its handlers, the Mongoose query patterns, the grouping
    helper and the preference check).  Store operations are functions on
    an explicit collection value, clock reads are explicit arguments and
    JavaScript exceptions are an explicit [Completion]. *)

From Stdlib Require Import ZArith.
From stdpp Require Import gmap strings list fin_maps pretty.

Local Open Scope Z_scope.

(** ** JavaScript completions *)

Module Js.

Inductive Error :=
| TypeError (msg : string)
| ValidationError (msg : string)
| OtherError (msg : string).

(** A call either returns a value or throws. *)
Inductive Completion (A : Type) :=
| Return (a : A)
| Throw (e : Error).
Arguments Return {A} a.
Arguments Throw {A} e.

(** A promise as it eventually settles. *)
Inductive Settlement :=
| Fulfilled
| Rejected (e : Error).

End Js.

(** ** The notification collection (schema of section 4 of the guide) *)

Module Store.

Definition ObjectId := nat.

Inductive NotificationType :=
| COMMENT | LIKE | SUBSCRIPTION | VIDEO_UPLOAD | MENTION | SYSTEM.

(** ['VIDEO'], ['COMMENT'], ['USER'], ['SYSTEM']; the two names shared with
    the notification types carry an [R]. *)
Inductive ResourceType :=
| VIDEO | RCOMMENT | USER | RSYSTEM.

#[export] Instance NotificationType_eq_dec : EqDecision NotificationType.
Proof. solve_decision. Defined.

#[export] Instance ResourceType_eq_dec : EqDecision ResourceType.
Proof. solve_decision. Defined.

(** [{ delivered: Boolean (default false), timestamp: Date }] *)
Record ChannelStatus := {
  delivered : bool;
  timestamp : option Z
}.

Record DeliveryStatus := {
  inApp : ChannelStatus;
  email : ChannelStatus;
  push : ChannelStatus
}.

Definition undelivered : ChannelStatus :=
  {| delivered := false; timestamp := None |}.

Definition defaultDeliveryStatus : DeliveryStatus :=
  {| inApp := undelivered; email := undelivered; push := undelivered |}.

(** A stored document.  [data] is [Mixed]; the payload is modelled as an
    object whose properties hold numbers, absent when the document has no
    [data] at all.  Dates are milliseconds since the epoch.  A JavaScript
    number is a double: an integer of the model stands for it exactly as
    long as it is a safe integer ([Grouping.safeInteger]); the properties
    below that compute with [data.count] carry that bound. *)
Record Notification := {
  _id : ObjectId;
  recipient : ObjectId;
  sender : option ObjectId;
  type : NotificationType;
  resourceType : ResourceType;
  resourceId : ObjectId;
  message : string;
  isRead : bool;
  deliveryStatus : DeliveryStatus;
  data : option (gmap string Z);
  createdAt : Z;
  updatedAt : Z
}.

#[export] Instance ChannelStatus_eq_dec : EqDecision ChannelStatus.
Proof. solve_decision. Defined.

#[export] Instance DeliveryStatus_eq_dec : EqDecision DeliveryStatus.
Proof. solve_decision. Defined.

#[export] Instance Notification_eq_dec : EqDecision Notification.
Proof. solve_decision. Defined.

(** The collection: documents in natural (insertion) order and the
    generator of fresh [_id]s. *)
Record Collection := {
  docs : list Notification;
  nextId : ObjectId
}.

(** [Model.findOne(filter)]: the first document, in natural order, that
    satisfies the filter, or [null]. *)
Definition findOne (filter : Notification -> bool) (c : Collection)
  : option Notification :=
  List.find filter (docs c).

(** Replace the first document satisfying [filter] by its image under
    [upd]; the result is the updated document ([{ new: true }]) or
    [null] when nothing matches. *)
Fixpoint updateFirst (filter : Notification -> bool)
    (upd : Notification -> Notification) (l : list Notification)
  : option Notification * list Notification :=
  match l with
  | [] => (None, [])
  | d :: rest =>
      if filter d then (Some (upd d), upd d :: rest)
      else
        let '(r, rest') := updateFirst filter upd rest in
        (r, d :: rest')
  end.

Definition findOneAndUpdate (filter : Notification -> bool)
    (upd : Notification -> Notification) (c : Collection)
  : option Notification * Collection :=
  let '(r, l) := updateFirst filter upd (docs c) in
  (r, {| docs := l; nextId := nextId c |}).

Definition findByIdAndUpdate (id : ObjectId)
    (upd : Notification -> Notification) (c : Collection)
  : option Notification * Collection :=
  findOneAndUpdate (fun d => bool_decide (_id d = id)) upd c.

(** [Model.updateMany(filter, update)]: every matching document. *)
Definition updateMany (filter : Notification -> bool)
    (upd : Notification -> Notification) (c : Collection) : Collection :=
  {| docs := List.map (fun d => if filter d then upd d else d) (docs c);
     nextId := nextId c |}.

Definition countDocuments (filter : Notification -> bool) (c : Collection)
  : nat :=
  length (List.filter filter (docs c)).

(** Identifiers in use are distinct and below the generator. *)
Definition wf (c : Collection) : Prop :=
  NoDup (List.map _id (docs c)) /\
  Forall (fun d => (_id d < nextId c)%nat) (docs c).

End Store.

(** ** Grouping and batching (section 7, pattern 1) *)

Module Candidate.

(** The plain object handed to the grouping helper and to
    [Notification.create]. *)
Record t := {
  recipient : Store.ObjectId;
  sender : option Store.ObjectId;
  type : Store.NotificationType;
  resourceType : Store.ResourceType;
  resourceId : Store.ObjectId;
  message : string;
  data : option (gmap string Z)
}.

End Candidate.

Module Grouping.
Import Store.

(** [3600000] ms: the "last hour" of the query. *)
Definition groupWindow : Z := 3600000.

(** [Number.isSafeInteger]: the integers that a JavaScript number holds
    exactly, on which [+ 1] is exact and which a template literal prints
    with all their digits. *)
Definition safeInteger (z : Z) : Prop := - 2 ^ 53 < z < 2 ^ 53.

(** The template literals of [generateGroupedMessage], for a count that is
    a safe integer (a number from 1e21 on is printed with an exponent). *)
Definition generateGroupedMessage (ty : NotificationType) (count : Z)
  : string :=
  match ty with
  | LIKE => "You received " +:+ pretty count +:+ " new likes on your content"
  | COMMENT =>
      "You received " +:+ pretty count +:+ " new comments on your video"
  | _ => "You have " +:+ pretty count +:+ " new notifications"
  end.

(** The filter of the [findOne] call: same recipient, type, resource
    type and resource id, and [createdAt >= Date.now() - 3600000]. *)
Definition similarFilter (now : Z) (userId : ObjectId) (n : Candidate.t)
    (d : Notification) : bool :=
  bool_decide (recipient d = userId)
  && bool_decide (type d = Candidate.type n)
  && bool_decide (resourceType d = Candidate.resourceType n)
  && bool_decide (resourceId d = Candidate.resourceId n)
  && bool_decide (now - groupWindow <= createdAt d).

(** [{ ...obj }] of a possibly undefined object. *)
Definition spread (o : option (gmap string Z)) : gmap string Z :=
  default ∅ o.

(** [similar.data?.count || 1]: an absent count and a zero count are
    both falsy. *)
Definition priorCount (similar : Notification) : Z :=
  match data similar ≫= (fun o => o !! "count") with
  | Some c => if bool_decide (c = 0) then 1 else c
  | None => 1
  end.

(** The [$set] of the grouped update, computed from the document that
    [findOne] returned.  [count + 1] is the sum JavaScript computes as
    long as it is a safe integer. *)
Definition groupedUpdate (now : Z) (similar : Notification)
    (ty : NotificationType) (d : Notification) : Notification :=
  let count := priorCount similar in
  {| _id := _id d;
     recipient := recipient d;
     sender := sender d;
     type := type d;
     resourceType := resourceType d;
     resourceId := resourceId d;
     message := generateGroupedMessage ty (count + 1);
     isRead := false;
     deliveryStatus := deliveryStatus d;
     data := Some (<["count" := count + 1]> (spread (data similar)));
     createdAt := createdAt d;
     updatedAt := now |}.

(** The document that [Notification.create({...newNotification, data:
    {..., count: 1}})] builds: schema defaults for the rest, timestamps
    from the clock. *)
Definition created (now : Z) (n : Candidate.t) (c : Collection)
  : Notification :=
  {| _id := nextId c;
     recipient := Candidate.recipient n;
     sender := Candidate.sender n;
     type := Candidate.type n;
     resourceType := Candidate.resourceType n;
     resourceId := Candidate.resourceId n;
     message := Candidate.message n;
     isRead := false;
     deliveryStatus := defaultDeliveryStatus;
     data := Some (<["count" := 1]> (spread (Candidate.data n)));
     createdAt := now;
     updatedAt := now |}.

Definition inserted (now : Z) (n : Candidate.t) (c : Collection)
  : Collection :=
  {| docs := docs c ++ [created now n c]; nextId := S (nextId c) |}.

(** [Notification.create] validates before it saves.  The candidate's
    recipient, type and resource are there by its type; [message] is
    [required], which for a string means not empty: an empty message makes
    the call reject with a [ValidationError] and nothing is stored. *)
Definition create (now : Z) (n : Candidate.t) (c : Collection)
  : Js.Completion Notification * Collection :=
  if bool_decide (Candidate.message n = EmptyString)
  then (Js.Throw (Js.ValidationError "Path `message` is required."), c)
  else (Js.Return (created now n c), inserted now n c).

(** First store call of [groupSimilarNotifications]. *)
Definition findSimilar (now : Z) (userId : ObjectId) (n : Candidate.t)
    (c : Collection) : option Notification :=
  findOne (similarFilter now userId n) c.

(** Second store call, after the first one has been awaited: update the
    document found, or create a new one. *)
Definition writeGrouped (now : Z) (n : Candidate.t)
    (similar : option Notification) (c : Collection)
  : Js.Completion (option Notification) * Collection :=
  match similar with
  | Some s =>
      let '(r, c') :=
        findByIdAndUpdate (_id s) (groupedUpdate now s (Candidate.type n)) c in
      (Js.Return r, c')
  | None =>
      let '(r, c') := create now n c in
      (match r with
       | Js.Return d => Js.Return (Some d)
       | Js.Throw e => Js.Throw e
       end, c')
  end.

(** One clock read per store call. *)
Record Clock := { atFind : Z; atWrite : Z }.

Definition groupSimilarNotifications (clk : Clock) (userId : ObjectId)
    (newNotification : Candidate.t) (c : Collection)
  : Js.Completion (option Notification) * Collection :=
  let similar := findSimilar (atFind clk) userId newNotification c in
  writeGrouped (atWrite clk) newNotification similar c.

(** Events delivered one after the other. *)
Fixpoint deliverAll (userId : ObjectId)
    (events : list (Clock * Candidate.t)) (c : Collection) : Collection :=
  match events with
  | [] => c
  | (clk, n) :: rest =>
      deliverAll userId rest
        (snd (groupSimilarNotifications clk userId n c))
  end.

(** The grouping key: recipient, type, resource type, resource id. *)
Definition Key : Type :=
  ObjectId * NotificationType * ResourceType * ObjectId.

Definition keyOf (n : Candidate.t) : Key :=
  (Candidate.recipient n, Candidate.type n, Candidate.resourceType n,
   Candidate.resourceId n).

Definition hasKey (k : Key) (d : Notification) : bool :=
  bool_decide ((recipient d, type d, resourceType d, resourceId d) = k).

Definition rowsWithKey (k : Key) (c : Collection) : list Notification :=
  List.filter (hasKey k) (docs c).

(** [data.count] of a stored document. *)
Definition countOf (d : Notification) : option Z :=
  data d ≫= (fun o => o !! "count").

(** *** Interleaved processing

    Each [await] of [groupSimilarNotifications] is a suspension point:
    a call in flight has either not issued its [findOne] yet, or holds
    the document that [findOne] returned and has not issued its write
    yet, or has returned. *)
Inductive Task :=
| Pending (clk : Clock) (userId : ObjectId) (n : Candidate.t)
| Awaiting (clk : Clock) (n : Candidate.t) (similar : option Notification)
| Finished (result : Js.Completion (option Notification)).

(** Run one call up to its next suspension point. *)
Definition stepTask (t : Task) (c : Collection) : Task * Collection :=
  match t with
  | Pending clk userId n =>
      (Awaiting clk n (findSimilar (atFind clk) userId n c), c)
  | Awaiting clk n similar =>
      let '(r, c') := writeGrouped (atWrite clk) n similar c in
      (Finished r, c')
  | Finished r => (Finished r, c)
  end.

Inductive Turn := First | Second.

(** Two calls in flight, resumed in the order the schedule gives. *)
Fixpoint interleave (schedule : list Turn) (a b : Task) (c : Collection)
  : Task * Task * Collection :=
  match schedule with
  | [] => (a, b, c)
  | First :: rest =>
      let '(a', c') := stepTask a c in interleave rest a' b c'
  | Second :: rest =>
      let '(b', c') := stepTask b c in interleave rest a b' c'
  end.

(** A schedule that runs each call to completion: two resumptions each. *)
Definition complete (schedule : list Turn) : Prop :=
  length (List.filter (fun t => match t with First => true | _ => false end)
            schedule) = 2%nat /\
  length (List.filter (fun t => match t with Second => true | _ => false end)
            schedule) = 2%nat.

(** A schedule in which one call returns before the other starts. *)
Definition serial (schedule : list Turn) : Prop :=
  schedule = [First; First; Second; Second] \/
  schedule = [Second; Second; First; First].

End Grouping.

(** ** Read/unread status management (sections 4 and 7) *)

Module ReadStatus.
Import Store.

(** [{ isRead: true }] applied by Mongoose, which also stamps
    [updatedAt] because the schema sets [timestamps: true]. *)
Definition setRead (now : Z) (d : Notification) : Notification :=
  {| _id := _id d;
     recipient := recipient d;
     sender := sender d;
     type := type d;
     resourceType := resourceType d;
     resourceId := resourceId d;
     message := message d;
     isRead := true;
     deliveryStatus := deliveryStatus d;
     data := data d;
     createdAt := createdAt d;
     updatedAt := now |}.

(** [{ _id: notificationId, recipient: userId }] *)
Definition ownedBy (notificationId userId : ObjectId) (d : Notification)
  : bool :=
  bool_decide (_id d = notificationId) && bool_decide (recipient d = userId).

Definition markAsRead (now : Z) (notificationId userId : ObjectId)
    (c : Collection) : option Notification * Collection :=
  findOneAndUpdate (ownedBy notificationId userId) (setRead now) c.

(** [{ recipient: userId, isRead: false }] *)
Definition unreadOf (userId : ObjectId) (d : Notification) : bool :=
  bool_decide (recipient d = userId) && negb (isRead d).

Definition markAllAsRead (now : Z) (userId : ObjectId) (c : Collection)
  : Collection :=
  updateMany (unreadOf userId) (setRead now) c.

Definition getUnreadCount (userId : ObjectId) (c : Collection) : nat :=
  countDocuments (unreadOf userId) c.

End ReadStatus.

(** ** Notification preferences (section 7, pattern 3) *)

Module TypeSettings.

(** [types.<name>]: an [enabled] flag and the object of the per-type
    channel flags.  A flag that is absent or [null] is a missing key; an
    entry without its [channels] object has [channels = None]. *)
Record t := {
  enabled : option bool;
  channels : option (gmap string bool)
}.

End TypeSettings.

Module Preferences.
Import Js.

Record t := {
  user : Store.ObjectId;
  channels : gmap string bool;
  types : gmap string TypeSettings.t
}.

(** JavaScript truthiness of a possibly missing boolean. *)
Definition truthy (v : option bool) : bool := default false v.

(** The channels of the schema.  [channels] and the [channels] of a type
    entry are read at these names, which the objects hold themselves or
    not at all; a name that JavaScript finds on the prototype of every
    object (['toString'], ['constructor'], ...) is no channel and is
    outside the model. *)
Definition channelNames : list string := ["inApp"; "email"; "push"; "sms"].

(** A record as the store hands it out: Mongoose builds the nested
    [channels] object of every type entry, from the schema. *)
Definition stored (p : t) : Prop :=
  forall notificationType s,
    types p !! notificationType = Some s ->
    is_Some (TypeSettings.channels s).

(** The three flags of the effective permission, each read as [false]
    when the record does not hold it: [type.enabled],
    [channel.globalEnabled] and [type.channelOverride[channel]]. *)
Definition typeEnabled (p : t) (notificationType : string) : bool :=
  match types p !! notificationType with
  | Some s => match TypeSettings.enabled s with Some b => b | None => false end
  | None => false
  end.

Definition globalEnabled (p : t) (channel : string) : bool :=
  match channels p !! channel with Some b => b | None => false end.

Definition channelOverride (p : t) (notificationType channel : string)
  : bool :=
  match types p !! notificationType with
  | Some s =>
      match TypeSettings.channels s ≫= (fun o => o !! channel) with
      | Some b => b
      | None => false
      end
  | None => false
  end.

(** [preferences] is [None] when the caller has no record to pass
    ([undefined] or [null]): reading [.types] off it throws.  The last
    line reads [channels[channel]] off the type entry behind [?.] only:
    an entry that is there without its [channels] object makes it
    throw. *)
Definition shouldDeliverToChannel (preferences : option t)
    (notificationType channel : string) : Completion bool :=
  match preferences with
  | None =>
      Throw (TypeError "Cannot read properties of undefined (reading 'types')")
  | Some p =>
      let ts := types p !! notificationType in
      if negb (truthy (ts ≫= TypeSettings.enabled)) then Return false
      else if negb (truthy (channels p !! channel)) then Return false
      else
        match ts with
        | Some s =>
            match TypeSettings.channels s with
            | Some o => Return (default false (o !! channel))
            | None =>
                Throw (TypeError
                         "Cannot read properties of undefined")
            end
        | None => Return false
        end
  end.

End Preferences.

(** ** The event emitter and the notification handlers (section 3) *)

Module Events.
Import Js.

(** The identity of a JavaScript object: [Obj n] for an object that came
    with a request or out of a query, [IdOf doc] for the [_id] object of
    the document [doc] that a [create] has just built. *)
Inductive Ref :=
| Obj (n : nat)
| IdOf (doc : Store.ObjectId).

#[export] Instance Ref_eq_dec : EqDecision Ref.
Proof. solve_decision. Defined.

(** Values carried by an event payload.  Text is a string.  An identifier
    is a Mongoose [ObjectId]: an object, with its identity and the id it
    holds.  [===] and [!==] compare strings by value and objects by
    identity, so two values of the model are equal exactly when [===]
    holds of them: two [ObjectId] objects holding the same id are
    different values. *)
Inductive Value :=
| VObjectId (ref : Ref) (id : Store.ObjectId)
| VStr (s : string).

#[export] Instance Value_eq_dec : EqDecision Value.
Proof. solve_decision. Defined.

(** The id that a payload property holds, when it is an [ObjectId]. *)
Definition idOf (v : option Value) : option Store.ObjectId :=
  match v with
  | Some (VObjectId _ i) => Some i
  | _ => None
  end.

(** A payload is a plain object; a property that is missing reads as
    [undefined], here [None]. *)
Abbreviation Payload := (gmap string Value).

(** [events/types.js] *)
Definition NEW_SUBSCRIPTION : string := "NEW_SUBSCRIPTION".
Definition NEW_VIDEO : string := "NEW_VIDEO".
Definition NEW_COMMENT : string := "NEW_COMMENT".
Definition NEW_LIKE : string := "NEW_LIKE".
Definition VIDEO_PROCESSED : string := "VIDEO_PROCESSED".

(** What is left of an [async] function when it has handed its promise
    to the caller: the work that settles the promise later, on the store
    as it is by then. *)
Definition Task : Type :=
  Store.Collection -> Store.Collection * Settlement.

(** What calling a listener gives back to [emit]: a plain return, a
    synchronous exception, or (for an [async] function) a promise, here
    the task that will settle it. *)
Inductive Invocation :=
| Returned
| Threw (e : Error)
| Promised (task : Task).

(** A listener is called with the payload, on the store as it is at the
    call.  What a listener does synchronously is done when the call
    returns; the store calls of an [async] listener are not: they belong
    to its task. *)
Definition Listener : Type :=
  Payload -> Store.Collection -> Store.Collection * Invocation.

(** Listeners per event name, in registration order. *)
Abbreviation EventEmitter := (gmap string (list Listener)).

(** [eventEmitter.on(eventType, listener)], on an emitter that has no
    listener for Node's own ['newListener'] event. *)
Definition on (eventType : string) (listener : Listener) (em : EventEmitter)
  : EventEmitter :=
  <[eventType := default [] (em !! eventType) ++ [listener]]> em.

(** What a call of [emit] leaves behind: its completion, how many
    listeners it called, the promises that listeners returned and that
    [emit] dropped (nothing awaits them, nothing catches their
    rejection), and the store. *)
Record Emit (A : Type) := {
  completion : Completion A;
  called : nat;
  pending : list Task;
  store : Store.Collection
}.
Arguments completion {A} _.
Arguments called {A} _.
Arguments pending {A} _.
Arguments store {A} _.

(** Node calls the listeners synchronously, in registration order; an
    exception thrown by a listener leaves [emit] at once.  A promise
    returned by a listener is dropped. *)
Fixpoint callListeners (ls : list Listener) (data : Payload)
    (n : nat) (dropped : list Task) (c : Store.Collection) : Emit bool :=
  match ls with
  | [] =>
      {| completion := Return true; called := n; pending := dropped;
         store := c |}
  | l :: rest =>
      let '(c', r) := l data c in
      match r with
      | Returned => callListeners rest data (S n) dropped c'
      | Promised task => callListeners rest data (S n) (dropped ++ [task]) c'
      | Threw e =>
          {| completion := Throw e; called := S n; pending := dropped;
             store := c' |}
      end
  end.

(** [eventEmitter.emit(eventType, data)].  Without a listener [emit]
    returns [false], except for the event ['error']: Node then throws,
    and as the payload is no [Error] it throws [ERR_UNHANDLED_ERROR]. *)
Definition emit (eventType : string) (data : Payload) (em : EventEmitter)
    (c : Store.Collection) : Emit bool :=
  match default [] (em !! eventType) with
  | [] =>
      {| completion :=
           if bool_decide (eventType = "error")
           then Throw (OtherError "ERR_UNHANDLED_ERROR")
           else Return false;
         called := 0; pending := []; store := c |}
  | ls => callListeners ls data 0 [] c
  end.

(** [emitEvent]: log, then [eventEmitter.emit(eventType, data)]; there
    is no [try] around the call and the result is discarded. *)
Definition emitEvent (eventType : string) (data : Payload)
    (em : EventEmitter) (c : Store.Collection) : Emit unit :=
  let r := emit eventType data em c in
  {| completion :=
       match completion r with
       | Return _ => Return tt
       | Throw e => Throw e
       end;
     called := called r;
     pending := pending r;
     store := store r |}.

(** An [async] function never throws to its caller: whatever its body
    does, the caller receives a promise.  [body] is the function run on
    its own from start to end; the listener hands it over as the task of
    the promise, and the store is untouched when the call returns. *)
Definition async
    (body : Payload -> Store.Collection -> Store.Collection * Settlement)
  : Listener :=
  fun data c => (c, Promised (body data)).

(** The object literal handed to [NotificationService.createNotification]. *)
Record NotificationArgs := {
  recipient : option Value;
  sender : option Value;
  type : string;
  resourceId : option Value;
  resourceType : string;
  message : string
}.

Section Handlers.

(** [NotificationService.createNotification] lives in
    [services/notification.service.js]; the handlers await it. *)
Variable createNotification :
  NotificationArgs -> Store.Collection -> Store.Collection * Settlement.

(** Text that JavaScript and the model cut alike: a string of the model
    is a sequence of bytes, one of JavaScript a sequence of UTF-16 units,
    and the two agree on ASCII text. *)
Fixpoint isAscii (s : string) : bool :=
  match s with
  | EmptyString => true
  | String ch rest => (Ascii.nat_of_ascii ch <? 128)%nat && isAscii rest
  end.

(** [commentText.substring(0, 50)] needs a string.  The cut is the one
    of JavaScript on ASCII text ([isAscii]). *)
Definition substring50 (v : option Value) : Completion string :=
  match v with
  | Some (VStr s) => Return (String.substring 0 50 s)
  | Some (VObjectId _ _) =>
      Throw (TypeError "commentText.substring is not a function")
  | None =>
      Throw (TypeError
               "Cannot read properties of undefined (reading 'substring')")
  end.

Definition quote : string := String (Ascii.ascii_of_nat 34) EmptyString.

(** Body of the [NEW_COMMENT] listener, run on its own from start to
    end. *)
Definition onNewComment (data : Payload) (c : Store.Collection)
  : Store.Collection * Settlement :=
  let videoId := data !! "videoId" in
  let authorId := data !! "authorId" in
  let videoOwnerId := data !! "videoOwnerId" in
  let commentText := data !! "commentText" in
  if bool_decide (authorId <> videoOwnerId) then
    match substring50 commentText with
    | Return text =>
        createNotification
          {| recipient := videoOwnerId;
             sender := authorId;
             type := "COMMENT";
             resourceId := videoId;
             resourceType := "VIDEO";
             message :=
               "New comment on your video: " +:+ quote +:+ text
               +:+ "..." +:+ quote |} c
    | Throw e => (c, Rejected e)
    end
  else (c, Fulfilled).

(** [`${subscriberName} subscribed...`]: a missing name prints as
    [undefined]. *)
Definition templateText (v : option Value) : string :=
  match v with
  | Some (VStr s) => s
  | Some (VObjectId _ i) => pretty i
  | None => "undefined"
  end.

(** Body of the [NEW_SUBSCRIPTION] listener, run on its own from start
    to end. *)
Definition onNewSubscription (data : Payload) (c : Store.Collection)
  : Store.Collection * Settlement :=
  let subscriberId := data !! "subscriberId" in
  let subscriberName := data !! "subscriberName" in
  let channelId := data !! "channelId" in
  createNotification
    {| recipient := channelId;
       sender := subscriberId;
       type := "SUBSCRIPTION";
       resourceId := subscriberId;
       resourceType := "USER";
       message := templateText subscriberName
                  +:+ " subscribed to your channel!" |} c.

Definition registerEventHandlers (em : EventEmitter) : EventEmitter :=
  on NEW_SUBSCRIPTION (async onNewSubscription)
    (on NEW_COMMENT (async onNewComment) em).

End Handlers.

End Events.

(** ** Native WebSocket fan-out (section 2) *)

Module Fanout.
Import Js Store.

Inductive ReadyState := CONNECTING | OPEN | CLOSING | CLOSED.

#[export] Instance ReadyState_eq_dec : EqDecision ReadyState.
Proof. solve_decision. Defined.

(** The objects that are serialised onto the wire. *)
Inductive WireMessage :=
| connection_successful (message : string)
| notification (data : Store.Notification).

(** A server-side socket: its state, what was sent through it, the close
    code if the server closed it, and the [userId] captured by the
    closures of its connection handler. *)
Record WebSocket := {
  readyState : ReadyState;
  sent : list WireMessage;
  closeCode : option Z;
  userId : option Store.ObjectId
}.

Definition Handle := nat.

(** [clients] is the [Map] from user id to socket; sockets are objects,
    so the map holds references into [sockets]. *)
Record Server := {
  clients : gmap Store.ObjectId Handle;
  sockets : gmap Handle WebSocket
}.

Definition empty : Server := {| clients := ∅; sockets := ∅ |}.

(** [ws.send(...)]: only an open socket carries the message. *)
Definition send (ws : Handle) (m : WireMessage) (s : Server) : Server :=
  {| clients := clients s;
     sockets :=
       alter (fun w =>
                if bool_decide (readyState w = OPEN) then
                  {| readyState := readyState w;
                     sent := sent w ++ [m];
                     closeCode := closeCode w;
                     userId := userId w |}
                else w) ws (sockets s) |}.

Definition close (ws : Handle) (code : Z) (s : Server) : Server :=
  {| clients := clients s;
     sockets :=
       alter (fun w =>
                {| readyState := CLOSED;
                   sent := sent w;
                   closeCode := Some code;
                   userId := userId w |}) ws (sockets s) |}.

Section Connection.

(** [jwt.verify(token, secret)] followed by [.userId]; [None] when
    verification throws. *)
Variable verify : string -> option Store.ObjectId.

(** [wss.on("connection", ...)]: the server hands over a new open
    socket [ws] for a request carrying [token]. *)
Definition connection (ws : Handle) (token : string) (s : Server)
  : Server :=
  let fresh :=
    {| readyState := OPEN; sent := []; closeCode := None;
       userId := None |} in
  let s := {| clients := clients s;
              sockets := <[ws := fresh]> (sockets s) |} in
  match verify token with
  | Some u =>
      let s :=
        {| clients := <[u := ws]> (clients s);
           sockets :=
             <[ws := {| readyState := OPEN; sent := [];
                        closeCode := None; userId := Some u |}]>
               (sockets s) |} in
      send ws (connection_successful "Connected to notification service") s
  | None => close ws 1008 s
  end.

End Connection.

(** [ws.on("close", ...)]: the entry of the socket's user is deleted,
    whichever socket it currently points to. *)
Definition onClose (ws : Handle) (s : Server) : Server :=
  let closed :=
    alter (fun w =>
             {| readyState := CLOSED; sent := sent w;
                closeCode := closeCode w; userId := userId w |})
      ws (sockets s) in
  match sockets s !! ws ≫= userId with
  | Some u => {| clients := delete u (clients s); sockets := closed |}
  | None => {| clients := clients s; sockets := closed |}
  end.

(** [ws.on("error", ...)]: [clients.delete(userId)]. *)
Definition onError (ws : Handle) (s : Server) : Server :=
  match sockets s !! ws ≫= userId with
  | Some u => {| clients := delete u (clients s); sockets := sockets s |}
  | None => s
  end.

(** The caller's view of one call: the value returned (or the error
    thrown), the notification object it passed (objects are passed by
    reference) and the server afterwards. *)
Record Sent := {
  returned : Completion bool;
  notificationAfter : Store.Notification;
  serverAfter : Server
}.

(** [WebSocket.OPEN] is read as the [OPEN] ready state; a registry entry
    whose socket object is gone counts as not open. *)
Definition sendNotificationToUser (user : Store.ObjectId)
    (n : Store.Notification) (s : Server) : Sent :=
  match clients s !! user with
  | Some client =>
      match sockets s !! client with
      | Some w =>
          if bool_decide (readyState w = OPEN) then
            {| returned := Return true;
               notificationAfter := n;
               serverAfter := send client (notification n) s |}
          else
            {| returned := Return false; notificationAfter := n;
               serverAfter := s |}
      | None =>
          {| returned := Return false; notificationAfter := n;
             serverAfter := s |}
      end
  | None =>
      {| returned := Return false; notificationAfter := n;
         serverAfter := s |}
  end.

(** The socket of user [u] right after its welcome message. *)
Definition welcomed (u : ObjectId) : WebSocket :=
  {| readyState := OPEN;
     sent := [connection_successful "Connected to notification service"];
     closeCode := None;
     userId := Some u |}.

(** Copies of notification [n] that went out through socket [ws]. *)
Definition copies (n : Store.Notification) (ws : Handle) (s : Server)
  : nat :=
  match sockets s !! ws with
  | Some w =>
      length (List.filter
                (fun m => match m with
                          | notification d => bool_decide (d = n)
                          | connection_successful _ => false
                          end) (sent w))
  | None => 0
  end.

End Fanout.

(** ** Delivery router *)

Module Router.
Import Js Store.

Inductive Channel := InApp | Email | Push.

(** The property name of a channel in [channels] and [deliveryStatus]. *)
Definition channelName (ch : Channel) : string :=
  match ch with
  | InApp => "inApp"
  | Email => "email"
  | Push => "push"
  end.

Definition statusOf (ch : Channel) (n : Notification) : ChannelStatus :=
  match ch with
  | InApp => inApp (deliveryStatus n)
  | Email => email (deliveryStatus n)
  | Push => push (deliveryStatus n)
  end.

Definition withStatus (ch : Channel) (st : ChannelStatus)
    (n : Notification) : Notification :=
  let ds := deliveryStatus n in
  {| _id := _id n;
     recipient := recipient n;
     sender := sender n;
     type := type n;
     resourceType := resourceType n;
     resourceId := resourceId n;
     message := message n;
     isRead := isRead n;
     deliveryStatus :=
       match ch with
       | InApp => {| inApp := st; email := email ds; push := push ds |}
       | Email => {| inApp := inApp ds; email := st; push := push ds |}
       | Push => {| inApp := inApp ds; email := email ds; push := st |}
       end;
     data := data n;
     createdAt := createdAt n;
     updatedAt := updatedAt n |}.

Section Deliver.

(** The key under which the preference record files a notification
    type, and the channel adapters (external collaborators) with the
    outcome of their attempt. *)
Variable typeKey : NotificationType -> string.
Variable adapter : Channel -> Notification -> bool.

(** Modelled from the spec: the Delivery Router of section 4.4, which
    the repository describes but does not implement.  For each of
    inApp, email and push it asks the preference check of the source;
    when permitted it invokes the channel adapter and, on success,
    records [deliveryStatus[channel] = {delivered, timestamp}].  A
    preference read that fails counts as not permitted. *)
Definition dispatch (now : Z) (preferences : option Preferences.t)
    (ch : Channel) (n : Notification) : Notification :=
  match Preferences.shouldDeliverToChannel preferences
          (typeKey (type n)) (channelName ch) with
  | Return true =>
      if adapter ch n then
        withStatus ch {| delivered := true; timestamp := Some now |} n
      else n
  | Return false => n
  | Throw _ => n
  end.

(** Modelled from the spec: [deliver(notification)] of section 4.4,
    the three channels dispatched independently, one after the other. *)
Definition deliver (now : Z) (preferences : option Preferences.t)
    (n : Notification) : Notification :=
  dispatch now preferences Push
    (dispatch now preferences Email
       (dispatch now preferences InApp n)).

End Deliver.

End Router.

(** ** Marking what is visible (section 7, pattern 2) *)

Module Visible.
Import Store.

(** [{ _id: { $in: notificationIds }, recipient: userId, isRead: false }] *)
Definition visibleUnread (notificationIds : list ObjectId)
    (userId : ObjectId) (d : Notification) : bool :=
  bool_decide (_id d ∈ notificationIds)
  && bool_decide (recipient d = userId)
  && negb (isRead d).

Definition markVisibleAsRead (now : Z) (notificationIds : list ObjectId)
    (userId : ObjectId) (c : Collection) : Collection :=
  updateMany (visibleUnread notificationIds userId) (ReadStatus.setRead now) c.

End Visible.

(** ** Schema defaults of the preference record (section 7, pattern 3) *)

Module Defaults.

Definition flags (inApp email push sms : bool) : gmap string bool :=
  <["inApp" := inApp]> (<["email" := email]>
    (<["push" := push]> (<["sms" := sms]> ∅))).

(** The record Mongoose builds for a user from the [default:] values of
    [notificationPreferencesSchema]. *)
Definition defaultPreferences (user : Store.ObjectId) : Preferences.t :=
  {| Preferences.user := user;
     Preferences.channels := flags true true true false;
     Preferences.types :=
       <["comments" :=
           {| TypeSettings.enabled := Some true;
              TypeSettings.channels := Some (flags true true true false) |}]>
       (<["likes" :=
            {| TypeSettings.enabled := Some true;
               TypeSettings.channels := Some (flags true false false false) |}]>
        (<["subscriptions" :=
             {| TypeSettings.enabled := Some true;
                TypeSettings.channels := Some (flags true true true false) |}]>
           ∅)) |}.

End Defaults.

(** ** The notification context of the front end (section 3) *)

Module Client.
Import Store.

(** The two pieces of React state of [NotificationProvider]. *)
Record State := {
  notifications : list Notification;
  unreadCount : Z
}.

(** [useState([])] and [useState(0)]. *)
Definition initial : State := {| notifications := []; unreadCount := 0 |}.

(** [socketInstance.on('notification', ...)]: prepend, count up. *)
Definition onNotification (n : Notification) (st : State) : State :=
  {| notifications := n :: notifications st;
     unreadCount := unreadCount st + 1 |}.

(** [{...n, isRead: true}] *)
Definition read (n : Notification) : Notification :=
  {| _id := _id n;
     recipient := recipient n;
     sender := sender n;
     type := type n;
     resourceType := resourceType n;
     resourceId := resourceId n;
     message := message n;
     isRead := true;
     deliveryStatus := deliveryStatus n;
     data := data n;
     createdAt := createdAt n;
     updatedAt := updatedAt n |}.

(** [markAsRead(notificationId)], run from the call to the two state
    updates without anything else happening to the provider in between.
    [fetch] rejects on a network failure only, whatever status the server
    answers with; the [catch] then leaves the state alone. *)
Definition markAsRead (fetchRejects : bool) (notificationId : ObjectId)
    (st : State) : State :=
  if fetchRejects then st
  else
    {| notifications :=
         List.map (fun n => if bool_decide (_id n = notificationId)
                            then read n else n) (notifications st);
       unreadCount := Z.max 0 (unreadCount st - 1) |}.

(** What happens to the provider, one thing after the other. *)
Inductive Action :=
| Receive (n : Notification)
| MarkAsRead (fetchRejects : bool) (notificationId : ObjectId).

Definition act (a : Action) (st : State) : State :=
  match a with
  | Receive n => onNotification n st
  | MarkAsRead rejects i => markAsRead rejects i st
  end.

Definition run (actions : list Action) (st : State) : State :=
  fold_left (fun st a => act a st) actions st.

(** The notifications of the list that are not read. *)
Definition unread (st : State) : list Notification :=
  List.filter (fun n => negb (isRead n)) (notifications st).

End Client.

(** ** The comment controller (section 3, emitting events) *)

Module Controller.
Import Js.

(** What the handler answers: [res.status(...).json(...)]. *)
Inductive Response :=
| Created (comment : Store.ObjectId)
| Failed (status : Z) (error : string).

(** [req.body] and [req.user._id], the latter an [ObjectId] object. *)
Record Request := {
  videoId : option Events.Value;
  content : option Events.Value;
  userId : Events.Value
}.

(** The object literal of the [NEW_COMMENT] event; a property whose value
    is [undefined] reads like a missing one. *)
Definition put (key : string) (v : option Events.Value)
    (o : Events.Payload) : Events.Payload :=
  match v with
  | Some x => <[key := x]> o
  | None => o
  end.

Definition commentEvent (req : Request) (commentId : Store.ObjectId)
    (owner : option Events.Value) : Events.Payload :=
  put "videoId" (videoId req)
    (put "commentId"
       (Some (Events.VObjectId (Events.IdOf commentId) commentId))
       (put "authorId" (Some (userId req))
          (put "videoOwnerId" owner
             (put "commentText" (content req) ∅)))).

Section AddComment.

(** The comment and video collections belong to models the guide does not
    show.  [createComment] is [Comment.create]: the new state of those
    collections and the [_id] of the comment, or the error it rejects
    with.  [findVideo] is [Video.findById]: the [owner] of the video (an
    [ObjectId] object of the document just read), [None] inside [Return]
    when there is no such video. *)
Variable Db : Type.
Variable createComment : Request -> Db -> Db * Completion Store.ObjectId.
Variable findVideo :
  option Events.Value -> Db -> Completion (option (option Events.Value)).

(** What a call of [addComment] leaves behind. *)
Record Outcome := {
  response : Response;
  db : Db;
  emitted : option (Events.Emit unit)
}.

Definition addComment (req : Request) (em : Events.EventEmitter)
    (d : Db) (c : Store.Collection) : Outcome :=
  match createComment req d with
  | (d', Throw _) =>
      {| response := Failed 500 "Failed to add comment"; db := d';
         emitted := None |}
  | (d', Return comment) =>
      match findVideo (videoId req) d' with
      | Throw _ =>
          {| response := Failed 500 "Failed to add comment"; db := d';
             emitted := None |}
      | Return None =>
          (* [video.owner] of [null] *)
          {| response := Failed 500 "Failed to add comment"; db := d';
             emitted := None |}
      | Return (Some owner) =>
          let r := Events.emitEvent Events.NEW_COMMENT
                     (commentEvent req comment owner) em c in
          match Events.completion r with
          | Return _ =>
              {| response := Created comment; db := d'; emitted := Some r |}
          | Throw _ =>
              {| response := Failed 500 "Failed to add comment"; db := d';
                 emitted := Some r |}
          end
      end
  end.

End AddComment.

Arguments response {Db} _.
Arguments db {Db} _.
Arguments emitted {Db} _.

End Controller.

(** ** Replacement by identifier *)

Module Replace.
Import Store.

(** What [findByIdAndUpdate] does to the documents of a collection whose
    identifiers are distinct: the document with the identifier is replaced
    by its image. *)
Definition byId (id : ObjectId) (upd : Notification -> Notification)
    (l : list Notification) : list Notification :=
  List.map (fun x => if bool_decide (_id x = id) then upd x else x) l.

End Replace.

(** ** Sample data *)

Module Examples.
Import Js Store Grouping.

Definition emptyCollection : Collection := {| docs := []; nextId := 0%nat |}.

(** A like of video 3, addressed to user 7. *)
Definition like (text : string) : Candidate.t :=
  {| Candidate.recipient := 7%nat;
     Candidate.sender := Some 8%nat;
     Candidate.type := LIKE;
     Candidate.resourceType := VIDEO;
     Candidate.resourceId := 3%nat;
     Candidate.message := text;
     Candidate.data := None |}.

Definition likeKey : Key := (7%nat, LIKE, VIDEO, 3%nat).

Definition clockAt (t : Z) : Clock := {| atFind := t; atWrite := t + 5 |}.

(** Three likes within ten minutes. *)
Definition firstLike : Clock * Candidate.t :=
  (clockAt 1000, like "Alice liked your video").

Definition laterLikes : list (Clock * Candidate.t) :=
  [(clockAt 240000, like "Bob liked your video");
   (clockAt 590000, like "Carol liked your video")].

(** A stored notification of user 7, and a collection holding it. *)
Definition stored : Notification :=
  {| _id := 0%nat;
     recipient := 7%nat;
     sender := Some 8%nat;
     type := COMMENT;
     resourceType := VIDEO;
     resourceId := 3%nat;
     message := "New comment on your video";
     isRead := false;
     deliveryStatus := defaultDeliveryStatus;
     data := None;
     createdAt := 1000;
     updatedAt := 1000 |}.

Definition oneStored : Collection :=
  {| docs := [stored]; nextId := 1%nat |}.

(** Preferences with the global email toggle off and the email override
    of comments on. *)
Definition allChannels (inAppOn emailOn pushOn smsOn : bool)
  : gmap string bool :=
  <["inApp" := inAppOn]> (<["email" := emailOn]>
    (<["push" := pushOn]> (<["sms" := smsOn]> ∅))).

Definition emailOff : Preferences.t :=
  {| Preferences.user := 7%nat;
     Preferences.channels := allChannels true false true false;
     Preferences.types :=
       <["comments" :=
           {| TypeSettings.enabled := Some true;
              TypeSettings.channels :=
                Some (allChannels true true true false) |}]>
         ∅ |}.

Definition typeKey (ty : NotificationType) : string :=
  match ty with
  | COMMENT => "comments"
  | LIKE => "likes"
  | SUBSCRIPTION => "subscriptions"
  | VIDEO_UPLOAD => "uploads"
  | MENTION => "mentions"
  | SYSTEM => "system"
  end.

(** Adapters that always succeed. *)
Definition reliable (ch : Router.Channel) (n : Notification) : bool := true.

(** Tokens of two users. *)
Definition verify (token : string) : option ObjectId :=
  if bool_decide (token = "token-of-7") then Some 7%nat
  else if bool_decide (token = "token-of-9") then Some 9%nat
  else None.

(** Two devices of user 7. *)
Definition twoDevices : Fanout.Server :=
  Fanout.connection verify 11%nat "token-of-7"
    (Fanout.connection verify 10%nat "token-of-7" Fanout.empty).

(** A comment by the owner of the video, as [addComment] publishes it:
    [req.user._id] and [video.owner] are two objects holding the id of
    user 7. *)
Definition ownComment : Events.Payload :=
  <["videoId" := Events.VStr "3"]>
    (<["commentId" := Events.VObjectId (Events.IdOf 21%nat) 21%nat]>
       (<["authorId" := Events.VObjectId (Events.Obj 1) 7%nat]>
          (<["videoOwnerId" := Events.VObjectId (Events.Obj 2) 7%nat]>
             (<["commentText" := Events.VStr "first"]> ∅)))).

(** A comment by somebody else, without its text. *)
Definition brokenComment : Events.Payload :=
  <["videoId" := Events.VStr "3"]>
    (<["authorId" := Events.VObjectId (Events.Obj 1) 8%nat]>
       (<["videoOwnerId" := Events.VObjectId (Events.Obj 2) 7%nat]> ∅)).

(** A notification service that takes a fresh id for every call. *)
Definition createNotification (args : Events.NotificationArgs)
    (c : Collection) : Collection * Settlement :=
  ({| docs := docs c; nextId := S (nextId c) |}, Fulfilled).

(** A notification service whose store is down. *)
Definition storeDown (args : Events.NotificationArgs) (c : Collection)
  : Collection * Settlement :=
  (c, Rejected (OtherError "store unavailable")).

(** A listener that is not [async] and throws, and one that returns. *)
Definition thrower : Events.Listener :=
  fun _ c => (c, Events.Threw (OtherError "boom")).

Definition quiet : Events.Listener :=
  fun _ c => (c, Events.Returned).

End Examples.

(** ** More sample data *)

Module Samples.
Import Js Store Grouping.

(** A comment on video 3 of user 7: the key of [Examples.stored]. *)
Definition comment (text : string) : Candidate.t :=
  {| Candidate.recipient := 7%nat;
     Candidate.sender := Some 9%nat;
     Candidate.type := COMMENT;
     Candidate.resourceType := VIDEO;
     Candidate.resourceId := 3%nat;
     Candidate.message := text;
     Candidate.data := None |}.


(** Shortly after [Examples.stored] was created, and more than an hour
    after. *)
Definition soon : Clock := {| atFind := 2000; atWrite := 2004 |}.
Definition muchLater : Clock := {| atFind := 4000000; atWrite := 4000003 |}.

(** A comment on video 3 of user 7 by user 8. *)
Definition otherComment : Events.Payload :=
  <["videoId" := Events.VStr "3"]>
    (<["commentId" := Events.VObjectId (Events.IdOf 22%nat) 22%nat]>
       (<["authorId" := Events.VObjectId (Events.Obj 1) 8%nat]>
          (<["videoOwnerId" := Events.VObjectId (Events.Obj 2) 7%nat]>
             (<["commentText" := Events.VStr "Great video"]> ∅)))).

(** The comment collection as the number of comments created so far, the
    identifier of a new comment being that number; video 3 belongs to
    user 7 and there is no other video. *)
Definition createComment (req : Controller.Request) (d : nat)
  : nat * Completion ObjectId :=
  (S d, Return d).

Definition findVideo (videoId : option Events.Value) (d : nat)
  : Completion (option (option Events.Value)) :=
  match videoId with
  | Some (Events.VStr i) =>
      if bool_decide (i = "3")
      then Return (Some (Some (Events.VObjectId (Events.Obj 2) 7%nat)))
      else Return None
  | _ => Return None
  end.

Definition commentBy (user video : ObjectId) : Controller.Request :=
  {| Controller.videoId := Some (Events.VStr (pretty video));
     Controller.content := Some (Events.VStr "Great video");
     Controller.userId := Events.VObjectId (Events.Obj 1) user |}.

(** An emitter with the handlers of the guide, and one whose first
    NEW_COMMENT listener throws. *)
Definition handlers : Events.EventEmitter :=
  Events.registerEventHandlers Examples.storeDown ∅.

Definition throwing : Events.EventEmitter :=
  Events.on Events.NEW_COMMENT Examples.quiet
    (Events.on Events.NEW_COMMENT Examples.thrower ∅).

End Samples.

(** * Properties *)

Import Js Store.

(** ** Preference check *)

Lemma shouldDeliverToChannel_flags
    (p : Preferences.t) (notificationType channel : string) :
  Preferences.stored p ->
  Preferences.shouldDeliverToChannel (Some p) notificationType channel =
  Return (Preferences.typeEnabled p notificationType
          && Preferences.globalEnabled p channel
          && Preferences.channelOverride p notificationType channel).
Proof.
  intros Hstored.
  unfold Preferences.shouldDeliverToChannel, Preferences.typeEnabled,
    Preferences.globalEnabled, Preferences.channelOverride, Preferences.truthy.
  destruct (Preferences.types p !! notificationType) as [s|] eqn:Hs; simpl.
  - destruct (Hstored _ _ Hs) as [o Ho]. rewrite Ho. simpl.
    destruct (TypeSettings.enabled s) as [[|]|]; simpl; trivial.
    destruct (Preferences.channels p !! channel) as [[|]|]; simpl; trivial.
  - reflexivity.
Qed.

(** The second check of the function answers before the type entry's
    channels are read. *)
Lemma shouldDeliverToChannel_global_off
    (p : Preferences.t) (notificationType channel : string) :
  Preferences.globalEnabled p channel = false ->
  Preferences.shouldDeliverToChannel (Some p) notificationType channel =
  Return false.
Proof.
  unfold Preferences.shouldDeliverToChannel, Preferences.globalEnabled,
    Preferences.truthy.
  intros Hoff.
  destruct (negb _); [reflexivity|].
  destruct (Preferences.channels p !! channel) as [[|]|];
    [discriminate|reflexivity|reflexivity].
Qed.

(** C3: for every stored preference record, every notification type and
    every channel of the schema (inApp, email, push, sms) the preference
    check returns the conjunction of the type's enabled flag, the
    channel's global flag and the type's override for the channel; it
    returns false as soon as one of the three flags is false and whenever
    the record holds no override for the channel. *)
Theorem shouldDeliverToChannel_is_conjunction
    (p : Preferences.t) (notificationType channel : string) :
  Preferences.stored p ->
  channel ∈ Preferences.channelNames ->
  Preferences.shouldDeliverToChannel (Some p) notificationType channel =
  Return (Preferences.typeEnabled p notificationType
          && Preferences.globalEnabled p channel
          && Preferences.channelOverride p notificationType channel)
  /\ (Preferences.typeEnabled p notificationType = false
      \/ Preferences.globalEnabled p channel = false
      \/ Preferences.channelOverride p notificationType channel = false ->
      Preferences.shouldDeliverToChannel (Some p) notificationType channel =
      Return false)
  /\ (forall s o, Preferences.types p !! notificationType = Some s ->
      TypeSettings.channels s = Some o -> o !! channel = None ->
      Preferences.shouldDeliverToChannel (Some p) notificationType channel =
      Return false)
  /\ (Preferences.types p !! notificationType = None ->
      Preferences.shouldDeliverToChannel (Some p) notificationType channel =
      Return false).
Proof.
  intros Hstored _. rewrite shouldDeliverToChannel_flags by exact Hstored.
  split; [reflexivity|]. split; [|split].
  - intros [H | [H | H]]; rewrite H; f_equal;
      by rewrite ?andb_false_r, ?andb_false_l.
  - intros s o Hs Ho Hc. unfold Preferences.channelOverride.
    rewrite Hs, Ho. simpl. rewrite Hc. by rewrite andb_false_r.
  - intros Hs. unfold Preferences.typeEnabled. by rewrite Hs.
Qed.

(** C4 as the code has it: handed no preference record, the check throws a
    [TypeError] for every type and channel; it returns neither [false]
    nor [true]. *)
Theorem shouldDeliverToChannel_without_record_throws
    (notificationType channel : string) :
  exists msg,
    Preferences.shouldDeliverToChannel None notificationType channel =
    Throw (TypeError msg)
  /\ (forall b,
        Preferences.shouldDeliverToChannel None notificationType channel =
        Return b -> False).
Proof.
  eexists. split; [reflexivity|]. intros b H. discriminate H.
Qed.

(** With no record to read, the check does not answer [false]: it does
    not fail closed. *)
Lemma shouldDeliverToChannel_not_fail_closed :
  Preferences.shouldDeliverToChannel None "comments" "email" <> Return false.
Proof. discriminate. Qed.

(** ** Delivery router *)

Lemma dispatch_type typeKey adapter now prefs ch n :
  type (Router.dispatch typeKey adapter now prefs ch n) = type n.
Proof.
  unfold Router.dispatch.
  destruct (Preferences.shouldDeliverToChannel _ _ _) as [[|]|]; trivial.
  destruct (adapter ch n); trivial.
Qed.

Lemma dispatch_other_channel typeKey adapter now prefs ch n :
  ch <> Router.Email ->
  email (deliveryStatus (Router.dispatch typeKey adapter now prefs ch n)) =
  email (deliveryStatus n).
Proof.
  intros Hch. unfold Router.dispatch.
  destruct (Preferences.shouldDeliverToChannel _ _ _) as [[|]|]; trivial.
  destruct (adapter ch n); trivial.
  destruct ch; simpl; congruence.
Qed.

Lemma dispatch_email_disabled typeKey adapter now p n :
  Preferences.globalEnabled p "email" = false ->
  Router.dispatch typeKey adapter now (Some p) Router.Email n = n.
Proof.
  intros Hoff. unfold Router.dispatch. simpl Router.channelName.
  by rewrite shouldDeliverToChannel_global_off.
Qed.

(** C7: when the user's preference record has the global email toggle
    off, the router leaves [deliveryStatus.email] of every notification as
    it found it, whatever the notification's type, the per-type email
    override and the adapters' outcomes; a flag that was false is not set
    to true. *)
Theorem deliver_global_email_off
    (typeKey : NotificationType -> string)
    (adapter : Router.Channel -> Notification -> bool)
    (now : Z) (p : Preferences.t) (n : Notification) :
  Preferences.channels p !! "email" = Some false ->
  email (deliveryStatus (Router.deliver typeKey adapter now (Some p) n)) =
  email (deliveryStatus n)
  /\ (delivered (email (deliveryStatus n)) = false ->
      delivered
        (email (deliveryStatus (Router.deliver typeKey adapter now (Some p) n)))
      = false).
Proof.
  intros Hoff.
  assert (Hg : Preferences.globalEnabled p "email" = false).
  { unfold Preferences.globalEnabled. by rewrite Hoff. }
  assert (Heq :
    email (deliveryStatus (Router.deliver typeKey adapter now (Some p) n)) =
    email (deliveryStatus n)).
  { unfold Router.deliver.
    rewrite dispatch_other_channel by discriminate.
    rewrite dispatch_email_disabled by exact Hg.
    apply dispatch_other_channel. discriminate. }
  split; [exact Heq|]. intros Hd. by rewrite Heq.
Qed.

(** ** Event handlers *)

(** The guard of the handler suppresses the notification when the two
    payload values are the same value: the same string, or the very same
    object. *)
Lemma onNewComment_self createNotification (data : Events.Payload) c :
  data !! "authorId" = data !! "videoOwnerId" ->
  Events.onNewComment createNotification data c = (c, Fulfilled).
Proof.
  intros Heq. unfold Events.onNewComment.
  rewrite bool_decide_eq_false_2; [reflexivity|].
  intros Hne. by apply Hne.
Qed.

(** C8 does not hold of the code.  [addComment] publishes the author as
    [req.user._id] and the owner as [video.owner], two [ObjectId] objects,
    and the handler compares them with [!==], that is by identity.  When
    the owner of a video comments on it the two hold the same id and are
    not the same object: the guard passes, the handler calls
    [createNotification], and the owner is notified of the own comment,
    recipient and sender being the same user. *)
Theorem new_comment_by_owner_notifies_owner
    (createNotification :
       Events.NotificationArgs -> Collection -> Collection * Settlement)
    (data : Events.Payload) (c : Collection)
    (user : ObjectId) (author owner : Events.Ref) (text : string) :
  data !! "authorId" = Some (Events.VObjectId author user) ->
  data !! "videoOwnerId" = Some (Events.VObjectId owner user) ->
  author <> owner ->
  data !! "commentText" = Some (Events.VStr text) ->
  Events.idOf (data !! "authorId") = Events.idOf (data !! "videoOwnerId")
  /\ exists message,
       Events.onNewComment createNotification data c =
       createNotification
         {| Events.recipient := Some (Events.VObjectId owner user);
            Events.sender := Some (Events.VObjectId author user);
            Events.type := "COMMENT";
            Events.resourceId := data !! "videoId";
            Events.resourceType := "VIDEO";
            Events.message := message |} c.
Proof.
  intros Hauthor Howner Hne Htext. split.
  - by rewrite Hauthor, Howner.
  - eexists. unfold Events.onNewComment. rewrite Hauthor, Howner, Htext.
    cbn [Events.substring50].
    rewrite bool_decide_eq_true_2; [reflexivity|]. congruence.
Qed.

(** ** Fan-out *)

(** C9: publishing to a user for whom the registry holds no connection
    returns [false] without throwing, touches no socket and no registry
    entry, and leaves the notification, in particular an in-app delivered
    flag that is false, as it was. *)
Theorem sendNotificationToUser_offline
    (user : ObjectId) (n : Notification) (s : Fanout.Server) :
  Fanout.clients s !! user = None ->
  delivered (inApp (deliveryStatus n)) = false ->
  Fanout.returned (Fanout.sendNotificationToUser user n s) = Return false
  /\ Fanout.serverAfter (Fanout.sendNotificationToUser user n s) = s
  /\ delivered
       (inApp (deliveryStatus
                 (Fanout.notificationAfter
                    (Fanout.sendNotificationToUser user n s)))) = false.
Proof.
  intros Hnone Hflag. unfold Fanout.sendNotificationToUser.
  rewrite Hnone. simpl. auto.
Qed.

(** ** Read status *)

Lemma updateFirst_no_match filter upd (l : list Notification) :
  Forall (fun d => filter d = false) l ->
  updateFirst filter upd l = (None, l).
Proof.
  induction 1 as [|d l Hd _ IH]; simpl; [reflexivity|].
  by rewrite Hd, IH.
Qed.

Lemma updateFirst_keeps filter upd (l : list Notification) i d :
  l !! i = Some d -> filter d = false ->
  (updateFirst filter upd l).2 !! i = Some d.
Proof.
  revert i. induction l as [|x l IH]; intros i Hi Hf; [done|].
  simpl. destruct (filter x) eqn:Hx.
  - destruct i as [|i]; simpl in *; [congruence|done].
  - destruct (updateFirst filter upd l) as [r l'] eqn:Hu.
    destruct i as [|i]; simpl in *; [done|]. by apply IH.
Qed.

(** C10: marking one notification read changes a stored document only if
    its [_id] is the given id and its recipient the given user; when the
    notification with that id belongs to someone else, the call returns
    [null] and the collection, that notification's [isRead] included, is
    what it was. *)
Theorem markAsRead_owner_only
    (now : Z) (notificationId userId : ObjectId) (c : Collection) :
  wf c ->
  (forall i d, docs c !! i = Some d ->
     ~ (_id d = notificationId /\ recipient d = userId) ->
     docs (ReadStatus.markAsRead now notificationId userId c).2 !! i = Some d)
  /\ (forall d, d ∈ docs c -> _id d = notificationId ->
      recipient d <> userId ->
      ReadStatus.markAsRead now notificationId userId c = (None, c)).
Proof.
  intros [Hnodup _]. split.
  - intros i d Hi Hnot. unfold ReadStatus.markAsRead, findOneAndUpdate.
    pose proof (updateFirst_keeps (ReadStatus.ownedBy notificationId userId)
                  (ReadStatus.setRead now) (docs c) i d Hi) as Hk.
    destruct (updateFirst _ _ (docs c)) as [r l]. simpl in *. apply Hk.
    unfold ReadStatus.ownedBy. apply andb_false_iff.
    destruct (decide (_id d = notificationId)) as [Hid|Hid].
    + right. apply bool_decide_eq_false_2. tauto.
    + left. by apply bool_decide_eq_false_2.
  - intros d Hin Hid Hrec. unfold ReadStatus.markAsRead, findOneAndUpdate.
    rewrite updateFirst_no_match; [by destruct c|].
    apply Forall_forall. intros d' Hin'. unfold ReadStatus.ownedBy.
    apply andb_false_iff.
    destruct (decide (_id d' = notificationId)) as [Hid'|Hid'].
    + right. apply bool_decide_eq_false_2.
      assert (d' = d) as ->; [|exact Hrec].
      apply list_elem_of_lookup in Hin as [i Hi].
      apply list_elem_of_lookup in Hin' as [j Hj].
      assert (i = j) as ->.
      { eapply NoDup_lookup; [exact Hnodup| |].
        - rewrite list_lookup_fmap, Hi. reflexivity.
        - rewrite list_lookup_fmap, Hj. simpl. congruence. }
      congruence.
    + left. by apply bool_decide_eq_false_2.
Qed.

(** ** Event emitter *)

Lemma callListeners_async bodies (data : Events.Payload) n dropped c :
  Events.callListeners (List.map Events.async bodies) data n dropped c =
  {| Events.completion := Return true;
     Events.called := (n + length bodies)%nat;
     Events.pending := dropped ++ List.map (fun b => b data) bodies;
     Events.store := c |}.
Proof.
  revert n dropped.
  induction bodies as [|b bodies IH]; intros n dropped; simpl.
  - by rewrite Nat.add_0_r, app_nil_r.
  - rewrite IH. by rewrite <- Nat.add_succ_comm, <- app_assoc.
Qed.

Lemma registerEventHandlers_async createNotification :
  Events.registerEventHandlers createNotification ∅ !! Events.NEW_COMMENT =
    Some (List.map Events.async [Events.onNewComment createNotification])
  /\ Events.registerEventHandlers createNotification ∅
       !! Events.NEW_SUBSCRIPTION =
     Some (List.map Events.async
             [Events.onNewSubscription createNotification]).
Proof.
  unfold Events.registerEventHandlers, Events.on. split.
  - rewrite lookup_insert_ne by discriminate.
    by rewrite lookup_insert_eq, lookup_empty.
  - rewrite lookup_insert_eq.
    rewrite lookup_insert_ne by discriminate. by rewrite lookup_empty.
Qed.

(** C5 as the code has it: when the listeners registered for an event,
    at least one, are [async] functions (as the ones of
    [registerEventHandlers] are), [emitEvent] returns normally after
    calling every one of them, in registration order: a listener that
    fails does so through the promise it returned, which neither stops
    the listeners after it nor reaches the producer.  The bus catches
    nothing: it drops the promise of every listener, so a rejection stays
    unhandled. *)
Theorem emitEvent_async_listeners
    (eventType : string) (data : Events.Payload) (em : Events.EventEmitter)
    (c : Collection)
    (bodies : list (Events.Payload -> Collection -> Collection * Settlement)) :
  em !! eventType = Some (List.map Events.async bodies) ->
  bodies <> [] ->
  Events.completion (Events.emitEvent eventType data em c) = Return tt
  /\ Events.called (Events.emitEvent eventType data em c) = length bodies
  /\ Events.pending (Events.emitEvent eventType data em c) =
     List.map (fun b => b data) bodies.
Proof.
  intros Hem Hne. unfold Events.emitEvent, Events.emit. rewrite Hem.
  destruct bodies as [|b bodies]; [done|].
  cbn [from_option id List.map].
  change (Events.async b :: List.map Events.async bodies)
    with (List.map Events.async (b :: bodies)).
  rewrite callListeners_async. done.
Qed.

(** ** Fan-out: the registry *)

Lemma connection_verified verify ws token u s :
  verify token = Some u ->
  Fanout.connection verify ws token s =
  {| Fanout.clients := <[u := ws]> (Fanout.clients s);
     Fanout.sockets := <[ws := Fanout.welcomed u]> (Fanout.sockets s) |}.
Proof.
  intros Hv. unfold Fanout.connection, Fanout.send. rewrite Hv. simpl.
  f_equal. rewrite alter_insert_eq. simpl. by rewrite !insert_insert_eq.
Qed.

Lemma copies_welcomed n ws u (socks : gmap Fanout.Handle Fanout.WebSocket) cl :
  Fanout.copies n ws
    {| Fanout.clients := cl; Fanout.sockets := <[ws := Fanout.welcomed u]> socks |}
  = 0%nat.
Proof. unfold Fanout.copies. simpl. by rewrite lookup_insert_eq. Qed.



(** ** Grouping: store lemmas *)

Import Grouping.

Lemma find_none (f : Notification -> bool) l :
  Forall (fun d => f d = false) l -> List.find f l = None.
Proof. induction 1 as [|d l Hd _ IH]; simpl; [done|]. by rewrite Hd. Qed.

Lemma find_last (f : Notification -> bool) l d :
  Forall (fun x => f x = false) l -> f d = true ->
  List.find f (l ++ [d]) = Some d.
Proof.
  induction 1 as [|x l Hx _ IH]; intros Hd; simpl.
  - by rewrite Hd.
  - rewrite Hx. by apply IH.
Qed.

Lemma updateFirst_last (f : Notification -> bool) upd l d :
  Forall (fun x => f x = false) l -> f d = true ->
  updateFirst f upd (l ++ [d]) = (Some (upd d), l ++ [upd d]).
Proof.
  induction 1 as [|x l Hx _ IH]; intros Hd; simpl.
  - by rewrite Hd.
  - rewrite Hx. by rewrite IH.
Qed.

Lemma filter_none (f : Notification -> bool) l :
  List.filter f l = [] -> Forall (fun d => f d = false) l.
Proof.
  induction l as [|d l IH]; simpl; [constructor|].
  destruct (f d) eqn:Hd; [discriminate|]. constructor; auto.
Qed.

Lemma filter_all_false (f : Notification -> bool) l :
  Forall (fun d => f d = false) l -> List.filter f l = [].
Proof. induction 1 as [|d l Hd _ IH]; simpl; [done|]. by rewrite Hd. Qed.

(** The query of [findOne] is the grouping key plus the window. *)
Lemma similarFilter_key now userId n d :
  Candidate.recipient n = userId ->
  similarFilter now userId n d =
  hasKey (keyOf n) d && bool_decide (now - groupWindow <= createdAt d).
Proof.
  intros <-. unfold similarFilter, hasKey, keyOf. f_equal.
  rewrite <- !bool_decide_and. apply bool_decide_ext. split.
  - intros [[[-> ->] ->] ->]. reflexivity.
  - intros [= -> -> -> ->]. auto.
Qed.

Lemma similarFilter_none now userId n l :
  Candidate.recipient n = userId ->
  Forall (fun d => hasKey (keyOf n) d = false) l ->
  Forall (fun d => similarFilter now userId n d = false) l.
Proof.
  intros Hr Hl. eapply Forall_impl; [exact Hl|]. intros d Hd. simpl in Hd.
  by rewrite similarFilter_key, Hd.
Qed.

(** An event that finds no document of its key appends one. *)
Lemma writeGrouped_none now n c :
  Candidate.message n <> EmptyString ->
  writeGrouped now n None c =
  (Return (Some (created now n c)), inserted now n c).
Proof.
  intros Hm. unfold writeGrouped, create.
  by rewrite bool_decide_eq_false_2.
Qed.

Lemma group_creates clk userId n c :
  Candidate.recipient n = userId ->
  Candidate.message n <> EmptyString ->
  rowsWithKey (keyOf n) c = [] ->
  groupSimilarNotifications clk userId n c =
  (Return (Some (created (atWrite clk) n c)), inserted (atWrite clk) n c).
Proof.
  intros Hr Hm Hrows. unfold groupSimilarNotifications, findSimilar, findOne.
  rewrite find_none; [by apply writeGrouped_none|].
  apply similarFilter_none; [done|]. by apply filter_none.
Qed.

(** An event that finds the document of its key, the last of the
    collection, rewrites it in place. *)
Lemma group_updates clk userId n l d nid :
  Candidate.recipient n = userId ->
  Forall (fun x => hasKey (keyOf n) x = false) l ->
  Forall (fun x => _id x <> _id d) l ->
  hasKey (keyOf n) d = true ->
  atFind clk - groupWindow <= createdAt d ->
  groupSimilarNotifications clk userId n {| docs := l ++ [d]; nextId := nid |}
  = (Return (Some (groupedUpdate (atWrite clk) d (Candidate.type n) d)),
     {| docs := l ++ [groupedUpdate (atWrite clk) d (Candidate.type n) d];
        nextId := nid |}).
Proof.
  intros Hr Hl Hid Hd Hwin.
  unfold groupSimilarNotifications, findSimilar, findOne. simpl.
  rewrite (find_last _ l d).
  - unfold writeGrouped, findByIdAndUpdate, findOneAndUpdate. simpl.
    rewrite updateFirst_last; [reflexivity| |by apply bool_decide_eq_true_2].
    eapply Forall_impl; [exact Hid|]. intros x Hx.
    by apply bool_decide_eq_false_2.
  - by apply similarFilter_none.
  - rewrite similarFilter_key by done. rewrite Hd. simpl.
    by apply bool_decide_eq_true_2.
Qed.

Lemma groupedUpdate_key k now s ty d :
  hasKey k (groupedUpdate now s ty d) = hasKey k d.
Proof. reflexivity. Qed.

Lemma priorCount_positive d k :
  countOf d = Some k -> 0 < k -> priorCount d = k.
Proof.
  unfold countOf, priorCount. intros -> Hk.
  rewrite bool_decide_eq_false_2; [done|lia].
Qed.

Lemma countOf_groupedUpdate now s ty d :
  countOf (groupedUpdate now s ty d) = Some (priorCount s + 1).
Proof. unfold countOf. simpl. apply lookup_insert_eq. Qed.

Lemma hasKey_created now n c :
  hasKey (keyOf n) (created now n c) = true.
Proof. unfold hasKey, keyOf. simpl. by apply bool_decide_eq_true_2. Qed.

Lemma keyOf_recipient n userId ty rt rid :
  keyOf n = (userId, ty, rt, rid) ->
  Candidate.recipient n = userId /\ Candidate.type n = ty.
Proof. unfold keyOf. intros [= -> -> _ _]. done. Qed.

(** ** Grouping: events delivered one after the other *)

(** Once the document of the key is the last one of the collection, every
    further event of the key inside its window is folded into it. *)
Lemma deliverAll_folds userId ty rt rid l nid rest :
  forall d cnt,
    Forall (fun x => hasKey (userId, ty, rt, rid) x = false) l ->
    Forall (fun x => _id x <> _id d) l ->
    hasKey (userId, ty, rt, rid) d = true ->
    countOf d = Some cnt -> 0 < cnt ->
    isRead d = false ->
    Forall (fun e : Clock * Candidate.t =>
              keyOf e.2 = (userId, ty, rt, rid)
              /\ atFind e.1 - groupWindow <= createdAt d) rest ->
    exists d',
      deliverAll userId rest {| docs := l ++ [d]; nextId := nid |} =
      {| docs := l ++ [d']; nextId := nid |}
      /\ hasKey (userId, ty, rt, rid) d' = true
      /\ countOf d' = Some (cnt + Z.of_nat (length rest))
      /\ isRead d' = false
      /\ message d' =
         match rest with
         | [] => message d
         | _ => generateGroupedMessage ty (cnt + Z.of_nat (length rest))
         end.
Proof.
  induction rest as [|[clk n] rest IH]; intros d cnt Hl Hid Hd Hcnt Hpos Hread Hall.
  - exists d. simpl. rewrite Z.add_0_r. done.
  - apply Forall_cons in Hall as [[Hkey Hwin] Hrest]. simpl in Hkey, Hwin.
    destruct (keyOf_recipient _ _ _ _ _ Hkey) as [Hrec Hty].
    cbn [deliverAll].
    rewrite (group_updates clk userId n l d nid); try done;
      [|by rewrite Hkey..].
    cbn [snd].
    set (d1 := groupedUpdate (atWrite clk) d (Candidate.type n) d).
    destruct (IH d1 (cnt + 1)) as (d' & Hrun & Hk' & Hc' & Hr' & Hm').
    + exact Hl.
    + exact Hid.
    + exact Hd.
    + subst d1. rewrite countOf_groupedUpdate.
      by rewrite (priorCount_positive d cnt).
    + lia.
    + reflexivity.
    + exact Hrest.
    + exists d'. split; [exact Hrun|]. split; [exact Hk'|].
      split; [rewrite Hc'; f_equal; simpl length; lia|].
      split; [exact Hr'|].
      rewrite Hm'. destruct rest as [|e rest'].
      * subst d1. simpl. rewrite (priorCount_positive d cnt) by done.
        by rewrite Hty.
      * f_equal. simpl length. lia.
Qed.

(** Events of one key, delivered one after the other to a collection that
    holds no document of the key, the later ones inside the window of the
    document the first one creates: the collection gains one document, at
    its end, and that document absorbs every event. *)
Lemma deliverAll_appends_one userId ty rt rid c first rest :
  wf c ->
  rowsWithKey (userId, ty, rt, rid) c = [] ->
  Candidate.message first.2 <> EmptyString ->
  Forall (fun e : Clock * Candidate.t => keyOf e.2 = (userId, ty, rt, rid))
    (first :: rest) ->
  Forall (fun e : Clock * Candidate.t =>
            atFind e.1 - groupWindow <= atWrite first.1) rest ->
  exists d,
    deliverAll userId (first :: rest) c =
    {| docs := docs c ++ [d]; nextId := S (nextId c) |}
    /\ hasKey (userId, ty, rt, rid) d = true
    /\ countOf d = Some (1 + Z.of_nat (length rest))
    /\ isRead d = false
    /\ message d =
       match rest with
       | [] => Candidate.message first.2
       | _ => generateGroupedMessage ty (1 + Z.of_nat (length rest))
       end.
Proof.
  intros [_ Hids] Hrows Hmsg Hkeys Hwin. destruct first as [clk n].
  apply Forall_cons in Hkeys as [Hkey Hkeys]. simpl in Hkey, Hmsg.
  destruct (keyOf_recipient _ _ _ _ _ Hkey) as [Hrec Hty].
  cbn [deliverAll]. rewrite group_creates; [|done|done|by rewrite Hkey].
  cbn [snd]. unfold inserted. set (d0 := created (atWrite clk) n c).
  apply (deliverAll_folds userId ty rt rid (docs c) (S (nextId c)) rest d0 1).
  - by apply filter_none.
  - eapply Forall_impl; [exact Hids|]. intros x Hx. simpl in *. lia.
  - rewrite <- Hkey. apply hasKey_created.
  - unfold countOf. simpl. apply lookup_insert_eq.
  - lia.
  - reflexivity.
  - apply Forall_forall. intros e He. split.
    + eapply Forall_forall in Hkeys; [exact Hkeys|exact He].
    + eapply Forall_forall in Hwin; [exact Hwin|exact He].
Qed.

(** The rows of a key in a collection that held none and gained one. *)
Lemma rowsWithKey_appended k l d nid :
  List.filter (hasKey k) l = [] -> hasKey k d = true ->
  rowsWithKey k {| docs := l ++ [d]; nextId := nid |} = [d].
Proof.
  intros Hl Hd. unfold rowsWithKey. cbn [docs].
  rewrite List.filter_app, Hl. simpl. by rewrite Hd.
Qed.

(** C1 as the code has it: N events of one grouping key, N a safe
    integer, the first one with a message that is not empty, delivered
    one after the other to a store that holds no row of the key, each
    later one finding the row inside the one-hour window, leave exactly
    one row of the key; its [data.count] is N and it is unread.  After a
    single event the row carries the event's own message; from the second
    event on the message is the type's template rendered with the new
    count. *)
Theorem grouping_sequential_events
    (userId : ObjectId) (ty : NotificationType) (rt : ResourceType)
    (rid : ObjectId) (c : Collection)
    (first : Clock * Candidate.t) (rest : list (Clock * Candidate.t)) :
  wf c ->
  rowsWithKey (userId, ty, rt, rid) c = [] ->
  Candidate.message first.2 <> EmptyString ->
  safeInteger (Z.of_nat (length (first :: rest))) ->
  Forall (fun e : Clock * Candidate.t => keyOf e.2 = (userId, ty, rt, rid))
    (first :: rest) ->
  Forall (fun e : Clock * Candidate.t =>
            atFind e.1 - groupWindow <= atWrite first.1) rest ->
  exists d,
    rowsWithKey (userId, ty, rt, rid) (deliverAll userId (first :: rest) c)
    = [d]
    /\ countOf d = Some (Z.of_nat (length (first :: rest)))
    /\ isRead d = false
    /\ message d =
       match rest with
       | [] => Candidate.message first.2
       | _ => generateGroupedMessage ty (Z.of_nat (length (first :: rest)))
       end.
Proof.
  intros Hwf Hrows Hfirst _ Hkeys Hwin.
  destruct (deliverAll_appends_one userId ty rt rid c first rest
              Hwf Hrows Hfirst Hkeys Hwin)
    as (d & Hrun & Hkey & Hcount & Hread & Hmsg).
  exists d. rewrite Hrun.
  assert (Hn : Z.of_nat (length (first :: rest)) = 1 + Z.of_nat (length rest))
    by (simpl length; lia).
  rewrite Hn. split; [|done].
  by apply rowsWithKey_appended.
Qed.

(** ** Grouping: two events in flight *)

Lemma complete_schedules schedule :
  complete schedule ->
  serial schedule
  \/ schedule = [First; Second; First; Second]
  \/ schedule = [First; Second; Second; First]
  \/ schedule = [Second; First; First; Second]
  \/ schedule = [Second; First; Second; First].
Proof.
  unfold complete, serial. intros [HF HS].
  destruct schedule as [|[] [|[] [|[] [|[] [|[] ?]]]]];
    simpl in HF, HS; try discriminate; auto 10.
Qed.

(** A serial schedule is a sequential delivery. *)
Lemma interleave_serial userId clkA nA clkB nB c :
  (interleave [First; First; Second; Second]
     (Pending clkA userId nA) (Pending clkB userId nB) c).2 =
  deliverAll userId [(clkA, nA); (clkB, nB)] c
  /\ (interleave [Second; Second; First; First]
        (Pending clkA userId nA) (Pending clkB userId nB) c).2 =
     deliverAll userId [(clkB, nB); (clkA, nA)] c.
Proof.
  split; simpl; unfold groupSimilarNotifications;
    repeat match goal with
           | |- context [writeGrouped ?t ?n ?s ?c] =>
               destruct (writeGrouped t n s c); simpl
           end; reflexivity.
Qed.

Lemma docs_inserted now n c :
  docs (inserted now n c) = docs c ++ [created now n c].
Proof. reflexivity. Qed.

Lemma countOf_created now n c : countOf (created now n c) = Some 1.
Proof. unfold countOf. simpl. apply lookup_insert_eq. Qed.

(** When both calls have run their [findOne] before either writes, and the
    collection holds no document of the key, both create one. *)
Lemma racing_writes_create userId ty rt rid c clkA nA clkB nB schedule :
  rowsWithKey (userId, ty, rt, rid) c = [] ->
  Candidate.message nA <> EmptyString ->
  Candidate.message nB <> EmptyString ->
  keyOf nA = (userId, ty, rt, rid) ->
  keyOf nB = (userId, ty, rt, rid) ->
  schedule = [First; Second; First; Second]
  \/ schedule = [First; Second; Second; First]
  \/ schedule = [Second; First; First; Second]
  \/ schedule = [Second; First; Second; First] ->
  length (rowsWithKey (userId, ty, rt, rid)
            (interleave schedule (Pending clkA userId nA)
               (Pending clkB userId nB) c).2) = 2%nat
  /\ Forall (fun d => countOf d = Some 1)
       (rowsWithKey (userId, ty, rt, rid)
          (interleave schedule (Pending clkA userId nA)
             (Pending clkB userId nB) c).2).
Proof.
  intros Hrows HmA HmB HA HB Hs.
  destruct (keyOf_recipient _ _ _ _ _ HA) as [HrA _].
  destruct (keyOf_recipient _ _ _ _ _ HB) as [HrB _].
  assert (HfA : forall now, findSimilar now userId nA c = None).
  { intros now. apply find_none, similarFilter_none; [done|].
    rewrite HA. by apply filter_none. }
  assert (HfB : forall now, findSimilar now userId nB c = None).
  { intros now. apply find_none, similarFilter_none; [done|].
    rewrite HB. by apply filter_none. }
  assert (HkA : forall now c', hasKey (userId, ty, rt, rid)
                                 (created now nA c') = true).
  { intros. rewrite <- HA. apply hasKey_created. }
  assert (HkB : forall now c', hasKey (userId, ty, rt, rid)
                                 (created now nB c') = true).
  { intros. rewrite <- HB. apply hasKey_created. }
  destruct Hs as [-> | [-> | [-> | ->]]];
    cbn [interleave stepTask]; rewrite HfA, HfB;
    rewrite writeGrouped_none by done; cbn [interleave stepTask];
    rewrite writeGrouped_none by done; cbn [interleave stepTask snd];
    unfold rowsWithKey; rewrite !docs_inserted, !List.filter_app;
    fold (rowsWithKey (userId, ty, rt, rid) c); rewrite Hrows;
    cbn [List.filter app]; rewrite HkA, HkB;
    (split; [reflexivity|]); cbn [app];
    repeat constructor; apply countOf_created.
Qed.

(** C2 as the code has it: the grouping is a [findOne] followed, after a
    suspension, by a separate write.  For two events of one key, each with
    a message that is not empty, on a store holding no row of the key,
    each inside the window of a row the other would create: when one call
    returns before the other starts the store
    ends with one row of the key; in every other interleaving both calls
    find nothing and each inserts its own row, so the store ends with two
    rows of the key, each with count 1. *)
Theorem grouping_two_events_in_flight
    (userId : ObjectId) (ty : NotificationType) (rt : ResourceType)
    (rid : ObjectId) (c : Collection)
    (clkA clkB : Clock) (nA nB : Candidate.t) (schedule : list Turn) :
  wf c ->
  rowsWithKey (userId, ty, rt, rid) c = [] ->
  Candidate.message nA <> EmptyString ->
  Candidate.message nB <> EmptyString ->
  keyOf nA = (userId, ty, rt, rid) ->
  keyOf nB = (userId, ty, rt, rid) ->
  atFind clkB - groupWindow <= atWrite clkA ->
  atFind clkA - groupWindow <= atWrite clkB ->
  complete schedule ->
  (serial schedule ->
   length (rowsWithKey (userId, ty, rt, rid)
             (interleave schedule (Pending clkA userId nA)
                (Pending clkB userId nB) c).2) = 1%nat)
  /\ (~ serial schedule ->
      length (rowsWithKey (userId, ty, rt, rid)
                (interleave schedule (Pending clkA userId nA)
                   (Pending clkB userId nB) c).2) = 2%nat
      /\ Forall (fun d => countOf d = Some 1)
           (rowsWithKey (userId, ty, rt, rid)
              (interleave schedule (Pending clkA userId nA)
                 (Pending clkB userId nB) c).2)).
Proof.
  intros Hwf Hrows HmA HmB HA HB HwB HwA Hcomplete. split.
  - destruct (interleave_serial userId clkA nA clkB nB c) as [HAB HBA].
    intros [-> | ->].
    + rewrite HAB.
      destruct (deliverAll_appends_one userId ty rt rid c (clkA, nA)
                  [(clkB, nB)]) as (d & -> & Hd & _); auto.
      by rewrite rowsWithKey_appended.
    + rewrite HBA.
      destruct (deliverAll_appends_one userId ty rt rid c (clkB, nB)
                  [(clkA, nA)]) as (d & -> & Hd & _); auto.
      by rewrite rowsWithKey_appended.
  - intros Hnot.
    destruct (complete_schedules schedule Hcomplete) as [Hs | Hs];
      [contradiction|].
    by apply racing_writes_create.
Qed.

(** * The properties at sample inputs *)

Import Examples.

Lemma wf_emptyCollection : wf emptyCollection.
Proof. split; constructor. Qed.

Lemma wf_oneStored : wf oneStored.
Proof.
  split; simpl.
  - apply NoDup_singleton.
  - repeat constructor.
Qed.

Lemma emailOff_stored : Preferences.stored emailOff.
Proof.
  intros ty s Hs. unfold emailOff in Hs. cbn [Preferences.types] in Hs.
  apply lookup_insert_Some in Hs as [[_ <-]|[_ Hs]]; [by eexists|].
  by rewrite lookup_empty in Hs.
Qed.

(** Email off globally, on for comments: the check answers with the
    conjunction of the three flags, here [false]. *)
Lemma shouldDeliverToChannel_email_off :
  Preferences.shouldDeliverToChannel (Some emailOff) "comments" "email" =
  Return (Preferences.typeEnabled emailOff "comments"
          && Preferences.globalEnabled emailOff "email"
          && Preferences.channelOverride emailOff "comments" "email")
  /\ (Preferences.typeEnabled emailOff "comments" = false
      \/ Preferences.globalEnabled emailOff "email" = false
      \/ Preferences.channelOverride emailOff "comments" "email" = false ->
      Preferences.shouldDeliverToChannel (Some emailOff) "comments" "email" =
      Return false)
  /\ (forall s o, Preferences.types emailOff !! "comments" = Some s ->
      TypeSettings.channels s = Some o -> o !! "email" = None ->
      Preferences.shouldDeliverToChannel (Some emailOff) "comments" "email" =
      Return false)
  /\ (Preferences.types emailOff !! "comments" = None ->
      Preferences.shouldDeliverToChannel (Some emailOff) "comments" "email" =
      Return false).
Proof.
  apply (shouldDeliverToChannel_is_conjunction emailOff "comments" "email").
  - exact emailOff_stored.
  - apply (bool_decide_unpack _). vm_compute. reflexivity.
Defined.

(** Three likes of one video within ten minutes: one row, count 3. *)
Lemma grouping_sequential_events_three_likes :
  exists d,
    rowsWithKey likeKey
      (deliverAll 7%nat (firstLike :: laterLikes) emptyCollection) = [d]
    /\ countOf d = Some 3
    /\ isRead d = false
    /\ message d = generateGroupedMessage LIKE 3.
Proof.
  apply (grouping_sequential_events 7%nat LIKE VIDEO 3%nat emptyCollection
           firstLike laterLikes).
  - exact wf_emptyCollection.
  - reflexivity.
  - discriminate.
  - unfold safeInteger. simpl. lia.
  - repeat constructor.
  - repeat constructor; simpl; unfold groupWindow; lia.
Defined.

(** A single like: the row carries the message of the event, not the
    template rendered with count 1. *)
Lemma grouping_single_event_message :
  List.map message
    (rowsWithKey likeKey (deliverAll 7%nat [firstLike] emptyCollection)) =
  ["Alice liked your video"]
  /\ List.map message
       (rowsWithKey likeKey (deliverAll 7%nat [firstLike] emptyCollection)) <>
     [generateGroupedMessage LIKE 1].
Proof. split; [reflexivity|]. vm_compute. discriminate. Qed.

(** Two likes of one video, delivered in any complete interleaving. *)
Lemma grouping_two_likes_in_flight :
  (serial [First; Second; First; Second] ->
   length (rowsWithKey likeKey
             (interleave [First; Second; First; Second]
                (Pending (clockAt 1000) 7%nat (like "Alice liked your video"))
                (Pending (clockAt 1002) 7%nat (like "Bob liked your video"))
                emptyCollection).2) = 1%nat)
  /\ (~ serial [First; Second; First; Second] ->
      length (rowsWithKey likeKey
                (interleave [First; Second; First; Second]
                   (Pending (clockAt 1000) 7%nat
                      (like "Alice liked your video"))
                   (Pending (clockAt 1002) 7%nat (like "Bob liked your video"))
                   emptyCollection).2) = 2%nat
      /\ Forall (fun d => countOf d = Some 1)
           (rowsWithKey likeKey
              (interleave [First; Second; First; Second]
                 (Pending (clockAt 1000) 7%nat
                    (like "Alice liked your video"))
                 (Pending (clockAt 1002) 7%nat (like "Bob liked your video"))
                 emptyCollection).2)).
Proof.
  apply (grouping_two_events_in_flight 7%nat LIKE VIDEO 3%nat emptyCollection
           (clockAt 1000) (clockAt 1002)).
  - exact wf_emptyCollection.
  - reflexivity.
  - discriminate.
  - discriminate.
  - reflexivity.
  - reflexivity.
  - simpl; unfold groupWindow; lia.
  - simpl; unfold groupWindow; lia.
  - split; reflexivity.
Defined.

(** Both calls run their [findOne] before either writes: two rows of the
    key, where the spec allows one. *)
Lemma grouping_race_duplicates_row :
  length (rowsWithKey likeKey
            (interleave [First; Second; First; Second]
               (Pending (clockAt 1000) 7%nat (like "Alice liked your video"))
               (Pending (clockAt 1002) 7%nat (like "Bob liked your video"))
               emptyCollection).2) = 2%nat
  /\ ~ (length (rowsWithKey likeKey
                  (interleave [First; Second; First; Second]
                     (Pending (clockAt 1000) 7%nat
                        (like "Alice liked your video"))
                     (Pending (clockAt 1002) 7%nat
                        (like "Bob liked your video"))
                     emptyCollection).2) <= 1)%nat.
Proof. split; [reflexivity|]. vm_compute. lia. Qed.

(** Two listeners of one event, the first one throwing synchronously: the
    error reaches the caller of [emitEvent] and the second listener is never
    called. *)
Lemma emitEvent_sync_throw_reaches_producer :
  let em := Events.on Events.NEW_LIKE quiet
              (Events.on Events.NEW_LIKE thrower ∅) in
  let r := Events.emitEvent Events.NEW_LIKE ∅ em emptyCollection in
  Events.completion r = Throw (OtherError "boom")
  /\ Events.called r = 1%nat
  /\ ~ (Events.completion r = Return tt /\ Events.called r = 2%nat).
Proof.
  intros em r.
  assert (Hc : Events.completion r = Throw (OtherError "boom"))
    by (vm_compute; reflexivity).
  split; [exact Hc|]. split; [vm_compute; reflexivity|].
  intros [H _]. rewrite Hc in H. discriminate H.
Qed.

(** The handlers registered twice, the notification service down and a
    comment without text: both listeners are called and the producer sees
    a normal return; the two promises are dropped. *)
Lemma emitEvent_async_listeners_rejecting :
  let em := Events.registerEventHandlers storeDown
              (Events.registerEventHandlers createNotification ∅) in
  Events.completion
    (Events.emitEvent Events.NEW_COMMENT brokenComment em emptyCollection)
  = Return tt
  /\ Events.called
       (Events.emitEvent Events.NEW_COMMENT brokenComment em emptyCollection)
     = length [Events.onNewComment createNotification;
               Events.onNewComment storeDown]
  /\ Events.pending
       (Events.emitEvent Events.NEW_COMMENT brokenComment em emptyCollection)
     = List.map (fun b => b brokenComment)
         [Events.onNewComment createNotification;
          Events.onNewComment storeDown].
Proof.
  intros em.
  apply (emitEvent_async_listeners Events.NEW_COMMENT brokenComment em
           emptyCollection
           [Events.onNewComment createNotification;
            Events.onNewComment storeDown]).
  - subst em. reflexivity.
  - discriminate.
Defined.



(** Email off globally, on for comments: the router leaves the email
    status of a comment notification alone. *)
Lemma deliver_global_email_off_comment :
  email (deliveryStatus
           (Router.deliver typeKey reliable 2000 (Some emailOff) stored)) =
  email (deliveryStatus stored)
  /\ (delivered (email (deliveryStatus stored)) = false ->
      delivered
        (email (deliveryStatus
                  (Router.deliver typeKey reliable 2000 (Some emailOff) stored)))
      = false).
Proof.
  apply (deliver_global_email_off typeKey reliable 2000 emailOff stored).
  reflexivity.
Defined.

(** The owner of video 3, user 7, comments on it: the service is asked
    for a notification from user 7 to user 7. *)
Lemma new_comment_by_owner_sample :
  Events.idOf (ownComment !! "authorId") =
  Events.idOf (ownComment !! "videoOwnerId")
  /\ exists message,
       Events.onNewComment createNotification ownComment emptyCollection =
       createNotification
         {| Events.recipient := Some (Events.VObjectId (Events.Obj 2) 7%nat);
            Events.sender := Some (Events.VObjectId (Events.Obj 1) 7%nat);
            Events.type := "COMMENT";
            Events.resourceId := ownComment !! "videoId";
            Events.resourceType := "VIDEO";
            Events.message := message |} emptyCollection.
Proof.
  apply (new_comment_by_owner_notifies_owner createNotification ownComment
           emptyCollection 7%nat (Events.Obj 1) (Events.Obj 2) "first").
  - reflexivity.
  - reflexivity.
  - discriminate.
  - reflexivity.
Defined.

(** User 9 has no connection while user 7 has two. *)
Lemma sendNotificationToUser_offline_sample :
  Fanout.returned (Fanout.sendNotificationToUser 9%nat stored twoDevices)
  = Return false
  /\ Fanout.serverAfter (Fanout.sendNotificationToUser 9%nat stored twoDevices)
     = twoDevices
  /\ delivered
       (inApp (deliveryStatus
                 (Fanout.notificationAfter
                    (Fanout.sendNotificationToUser 9%nat stored twoDevices))))
     = false.
Proof.
  apply (sendNotificationToUser_offline 9%nat stored twoDevices).
  - vm_compute. reflexivity.
  - reflexivity.
Defined.

(** User 9 tries to mark the notification of user 7 read. *)
Lemma markAsRead_owner_only_sample :
  (forall i d, docs oneStored !! i = Some d ->
     ~ (_id d = 0%nat /\ recipient d = 9%nat) ->
     docs (ReadStatus.markAsRead 5000 0%nat 9%nat oneStored).2 !! i = Some d)
  /\ (forall d, d ∈ docs oneStored -> _id d = 0%nat ->
      recipient d <> 9%nat ->
      ReadStatus.markAsRead 5000 0%nat 9%nat oneStored = (None, oneStored)).
Proof.
  apply (markAsRead_owner_only 5000 0%nat 9%nat oneStored).
  exact wf_oneStored.
Defined.

(** * Further properties of the code *)

(** ** Read status: the remaining operations *)

Lemma updateFirst_at (f : Notification -> bool) upd l i d :
  l !! i = Some d -> f d = true ->
  (forall j x, (j < i)%nat -> l !! j = Some x -> f x = false) ->
  updateFirst f upd l = (Some (upd d), <[i := upd d]> l).
Proof.
  revert i. induction l as [|y l IH]; intros i Hi Hd Hbefore; [done|].
  destruct i as [|i]; simpl in *.
  - injection Hi as ->. by rewrite Hd.
  - rewrite (Hbefore 0%nat y) by (done || lia).
    rewrite (IH i); [done..|].
    intros j x Hj Hx. apply (Hbefore (S j) x); [lia|done].
Qed.

(** In a well-formed collection the identifier picks the position. *)
Lemma wf_same_id c i j d x :
  wf c -> docs c !! i = Some d -> docs c !! j = Some x -> _id x = _id d ->
  i = j.
Proof.
  intros [Hnodup _] Hi Hj Hid.
  eapply NoDup_lookup; [exact Hnodup| |].
  - rewrite list_lookup_fmap, Hi. reflexivity.
  - rewrite list_lookup_fmap, Hj. simpl. by rewrite Hid.
Qed.

Lemma count_insert (f : Notification -> bool) l i x y :
  l !! i = Some x ->
  (length (List.filter f (<[i := y]> l)) + (if f x then 1 else 0) =
   length (List.filter f l) + (if f y then 1 else 0))%nat.
Proof.
  intros Hi.
  rewrite insert_take_drop by (eapply lookup_lt_Some; exact Hi).
  rewrite <- (take_drop_middle l i x Hi) at 3.
  rewrite !List.filter_app, !length_app. simpl.
  destruct (f x), (f y); simpl; lia.
Qed.

Lemma unreadOf_setRead now userId d :
  ReadStatus.unreadOf userId (ReadStatus.setRead now d) = false.
Proof. unfold ReadStatus.unreadOf. simpl. apply andb_false_r. Qed.

(** X1: the recipient marks one of its own notifications read.  The call
    returns the document with [isRead] set, only that document changes,
    and the recipient's unread count drops by one when the notification
    was unread and stays as it is when it was read already. *)
Theorem markAsRead_by_recipient
    (now : Z) (c : Collection) (i : nat) (d : Notification) :
  wf c ->
  docs c !! i = Some d ->
  ReadStatus.markAsRead now (_id d) (recipient d) c =
  (Some (ReadStatus.setRead now d),
   {| docs := <[i := ReadStatus.setRead now d]> (docs c);
      nextId := nextId c |})
  /\ isRead (ReadStatus.setRead now d) = true
  /\ (ReadStatus.getUnreadCount (recipient d)
        (ReadStatus.markAsRead now (_id d) (recipient d) c).2
      + (if isRead d then 0 else 1) =
      ReadStatus.getUnreadCount (recipient d) c)%nat.
Proof.
  intros Hwf Hi.
  assert (Hrun : ReadStatus.markAsRead now (_id d) (recipient d) c =
    (Some (ReadStatus.setRead now d),
     {| docs := <[i := ReadStatus.setRead now d]> (docs c);
        nextId := nextId c |})).
  { unfold ReadStatus.markAsRead, findOneAndUpdate.
    rewrite (updateFirst_at _ _ (docs c) i d); [done|done| |].
    - unfold ReadStatus.ownedBy. by rewrite !bool_decide_eq_true_2.
    - intros j x Hj Hx. unfold ReadStatus.ownedBy.
      apply andb_false_iff. left. apply bool_decide_eq_false_2.
      intros Hid. pose proof (wf_same_id c i j d x Hwf Hi Hx Hid). lia. }
  split; [exact Hrun|]. split; [reflexivity|].
  rewrite Hrun. unfold ReadStatus.getUnreadCount, countDocuments. cbn [snd docs].
  pose proof (count_insert (ReadStatus.unreadOf (recipient d)) (docs c) i d
                (ReadStatus.setRead now d) Hi) as Hcount.
  rewrite unreadOf_setRead in Hcount.
  assert (Hown : ReadStatus.unreadOf (recipient d) d = negb (isRead d)).
  { unfold ReadStatus.unreadOf. by rewrite bool_decide_eq_true_2. }
  rewrite Hown in Hcount.
  destruct (isRead d); simpl in *; lia.
Qed.

Lemma filter_map_none (f : Notification -> bool) (g : Notification -> Notification) l :
  (forall x, f (g x) = false) ->
  List.filter f (List.map (fun x => if f x then g x else x) l) = [].
Proof.
  intros Hg. induction l as [|x l IH]; simpl; [done|].
  destruct (f x) eqn:Hx; [by rewrite Hg|by rewrite Hx].
Qed.

Lemma filter_map_other (f h : Notification -> bool)
    (g : Notification -> Notification) l :
  (forall x, f x = true -> h (g x) = h x) ->
  List.filter h (List.map (fun x => if f x then g x else x) l) =
  List.map (fun x => if f x then g x else x) (List.filter h l).
Proof.
  intros Hg. induction l as [|x l IH]; simpl; [done|].
  destruct (f x) eqn:Hx.
  - rewrite (Hg x Hx). destruct (h x); simpl; by rewrite ?Hx, IH.
  - destruct (h x); simpl; by rewrite ?Hx, IH.
Qed.

(** X2: after "mark all as read" the user has no unread notification; the
    unread count of every other user is what it was, no document of
    another recipient changes, and no document is added or removed. *)
Theorem markAllAsRead_clears_user
    (now : Z) (userId : ObjectId) (c : Collection) :
  ReadStatus.getUnreadCount userId (ReadStatus.markAllAsRead now userId c)
  = 0%nat
  /\ (forall other, other <> userId ->
        ReadStatus.getUnreadCount other
          (ReadStatus.markAllAsRead now userId c) =
        ReadStatus.getUnreadCount other c)
  /\ (forall i d, docs c !! i = Some d -> recipient d <> userId ->
        docs (ReadStatus.markAllAsRead now userId c) !! i = Some d)
  /\ length (docs (ReadStatus.markAllAsRead now userId c)) = length (docs c).
Proof.
  unfold ReadStatus.markAllAsRead, ReadStatus.getUnreadCount, updateMany,
    countDocuments. cbn [docs].
  split; [|split; [|split]].
  - rewrite filter_map_none; [done|]. intros x. apply unreadOf_setRead.
  - intros other Hother. rewrite filter_map_other.
    + by rewrite length_map.
    + intros x Hx. unfold ReadStatus.unreadOf in *. simpl.
      apply andb_true_iff in Hx as [Hrec _]. apply bool_decide_eq_true in Hrec.
      rewrite !bool_decide_eq_false_2 by congruence. done.
  - intros i d Hi Hrec.
    change (List.map ?f ?l) with (f <$> l).
    rewrite list_lookup_fmap, Hi. simpl.
    unfold ReadStatus.unreadOf. by rewrite bool_decide_eq_false_2.
  - apply length_map.
Qed.

(** X3: "mark all as read" twice is "mark all as read" once: the second
    call matches nothing, so not even [updatedAt] moves. *)
Theorem markAllAsRead_idempotent
    (now later : Z) (userId : ObjectId) (c : Collection) :
  ReadStatus.markAllAsRead later userId
    (ReadStatus.markAllAsRead now userId c) =
  ReadStatus.markAllAsRead now userId c.
Proof.
  unfold ReadStatus.markAllAsRead, updateMany. cbn [docs nextId]. f_equal.
  rewrite List.map_map. apply List.map_ext. intros d.
  destruct (ReadStatus.unreadOf userId d) eqn:Hd.
  - by rewrite unreadOf_setRead.
  - by rewrite Hd.
Qed.

(** X4: marking the visible notifications read touches only documents
    that are listed and belong to the user; the user's unread count
    afterwards counts the unread notifications that were not listed, other
    users' counts do not move, and an empty list changes nothing. *)
Theorem markVisibleAsRead_marks_listed
    (now : Z) (notificationIds : list ObjectId) (userId : ObjectId)
    (c : Collection) :
  (forall i d, docs c !! i = Some d ->
     _id d ∉ notificationIds \/ recipient d <> userId ->
     docs (Visible.markVisibleAsRead now notificationIds userId c) !! i
     = Some d)
  /\ ReadStatus.getUnreadCount userId
       (Visible.markVisibleAsRead now notificationIds userId c) =
     countDocuments
       (fun d => ReadStatus.unreadOf userId d
                 && negb (bool_decide (_id d ∈ notificationIds))) c
  /\ (forall other, other <> userId ->
        ReadStatus.getUnreadCount other
          (Visible.markVisibleAsRead now notificationIds userId c) =
        ReadStatus.getUnreadCount other c)
  /\ Visible.markVisibleAsRead now [] userId c = c.
Proof.
  unfold Visible.markVisibleAsRead, ReadStatus.getUnreadCount, updateMany,
    countDocuments. cbn [docs].
  split; [|split; [|split]].
  - intros i d Hi Hout.
    change (List.map ?f ?l) with (f <$> l).
    rewrite list_lookup_fmap, Hi. simpl.
    replace (Visible.visibleUnread notificationIds userId d) with false;
      [done|].
    symmetry. unfold Visible.visibleUnread.
    destruct Hout as [Hout | Hout].
    + by rewrite (bool_decide_eq_false_2 _ Hout).
    + rewrite (bool_decide_eq_false_2 _ Hout). by rewrite andb_false_r.
  - f_equal. induction (docs c) as [|x l IH]; simpl; [done|].
    rewrite IH.
    destruct (Visible.visibleUnread notificationIds userId x) eqn:Hv.
    + rewrite unreadOf_setRead. unfold Visible.visibleUnread in Hv.
      apply andb_true_iff in Hv as [Hv _].
      apply andb_true_iff in Hv as [Hin _].
      rewrite Hin. simpl. by rewrite andb_false_r.
    + destruct (ReadStatus.unreadOf userId x) eqn:Hx; simpl; [|done].
      unfold Visible.visibleUnread in Hv. unfold ReadStatus.unreadOf in Hx.
      rewrite <- andb_assoc, Hx, andb_true_r in Hv. by rewrite Hv.
  - intros other Hother. rewrite filter_map_other.
    + by rewrite length_map.
    + intros x Hx. unfold Visible.visibleUnread in Hx.
      apply andb_true_iff in Hx as [Hx _].
      apply andb_true_iff in Hx as [_ Hrec].
      apply bool_decide_eq_true in Hrec.
      unfold ReadStatus.unreadOf. simpl.
      rewrite !bool_decide_eq_false_2 by congruence. done.
  - destruct c as [l n]. cbn [docs nextId]. f_equal.
    rewrite <- (List.map_id l) at 2. apply List.map_ext. intros x.
    unfold Visible.visibleUnread.
    rewrite bool_decide_eq_false_2; [done|]. apply not_elem_of_nil.
Qed.

(** ** Identifiers of the stored documents *)


(** ** Grouping: rows that exist already *)

Lemma similarFilter_hasKey now userId n x :
  similarFilter now userId n x = true ->
  hasKey (userId, Candidate.type n, Candidate.resourceType n,
          Candidate.resourceId n) x = true
  /\ now - groupWindow <= createdAt x.
Proof.
  unfold similarFilter, hasKey. intros H.
  apply andb_true_iff in H as [H Hw].
  apply andb_true_iff in H as [H H4].
  apply andb_true_iff in H as [H H3].
  apply andb_true_iff in H as [H1 H2].
  apply bool_decide_eq_true in H1, H2, H3, H4, Hw.
  split; [|done]. apply bool_decide_eq_true_2. congruence.
Qed.

Lemma updateFirst_byId upd l d :
  NoDup (List.map _id l) -> d ∈ l ->
  updateFirst (fun x => bool_decide (_id x = _id d)) upd l =
  (Some (upd d), Replace.byId (_id d) upd l).
Proof.
  unfold Replace.byId.
  induction l as [|y l IH]; intros Hnodup Hin; [by apply elem_of_nil in Hin|].
  simpl in Hnodup. apply NoDup_cons in Hnodup as [Hy Hnodup]. simpl.
  destruct (bool_decide (_id y = _id d)) eqn:Hyd.
  - apply bool_decide_eq_true in Hyd.
    assert (y = d) as ->.
    { apply elem_of_cons in Hin as [->|Hin]; [done|].
      exfalso. apply Hy. rewrite Hyd.
      change (List.map _id l) with (_id <$> l). by apply list_elem_of_fmap_2. }
    f_equal. f_equal. rewrite <- (List.map_id l) at 1.
    apply List.map_ext_in. intros x Hx.
    rewrite bool_decide_eq_false_2; [done|].
    intros Hxd. apply Hy. rewrite <- Hxd.
    change (List.map _id l) with (_id <$> l).
    apply list_elem_of_fmap_2. by apply list_elem_of_In.
  - apply bool_decide_eq_false in Hyd.
    apply elem_of_cons in Hin as [->|Hin]; [done|].
    by rewrite (IH Hnodup Hin).
Qed.

Lemma find_only (f g : Notification -> bool) l d :
  List.filter f l = [d] ->
  (forall x, g x = true -> f x = true) -> g d = true ->
  List.find g l = Some d.
Proof.
  intros Hf Hgf Hd. induction l as [|x l IH]; simpl in *; [done|].
  destruct (f x) eqn:Hx.
  - injection Hf as -> Hl. by rewrite Hd.
  - destruct (g x) eqn:Hgx; [|by apply IH].
    rewrite (Hgf x Hgx) in Hx. discriminate.
Qed.

Lemma filter_singleton_elem (f : Notification -> bool) l d :
  List.filter f l = [d] -> d ∈ l /\ f d = true.
Proof.
  intros Hf.
  assert (Hin : In d (List.filter f l)) by (rewrite Hf; by left).
  apply List.filter_In in Hin as [Hin Hd]. split; [|done].
  by apply list_elem_of_In.
Qed.

Lemma rows_byId k id upd l :
  (forall x, hasKey k (upd x) = hasKey k x) ->
  List.filter (hasKey k) (Replace.byId id upd l) =
  Replace.byId id upd (List.filter (hasKey k) l).
Proof.
  intros Hupd. unfold Replace.byId.
  apply (filter_map_other (fun x => bool_decide (_id x = id))).
  intros x _. apply Hupd.
Qed.


(** The write of a call that holds document [s]: whatever document now
    carries the identifier of [s] is rewritten from the data of [s]. *)
Lemma writeGrouped_found now n s x c :
  NoDup (List.map _id (docs c)) -> x ∈ docs c -> _id x = _id s ->
  writeGrouped now n (Some s) c =
  (Return (Some (groupedUpdate now s (Candidate.type n) x)),
   {| docs := Replace.byId (_id s)
                (groupedUpdate now s (Candidate.type n)) (docs c);
      nextId := nextId c |}).
Proof.
  intros Hnodup Hx Hid. unfold writeGrouped, findByIdAndUpdate, findOneAndUpdate.
  rewrite <- Hid. by rewrite updateFirst_byId.
Qed.

(** The first store call of an event whose key has exactly one row, inside
    the window. *)
Lemma findSimilar_only clk userId n c d :
  Candidate.recipient n = userId ->
  rowsWithKey (keyOf n) c = [d] ->
  atFind clk - groupWindow <= createdAt d ->
  findSimilar (atFind clk) userId n c = Some d.
Proof.
  intros Hrec Hrows Hwin. unfold findSimilar, findOne.
  destruct (filter_singleton_elem _ _ _ Hrows) as [_ Hd].
  apply (find_only (hasKey (keyOf n))); [exact Hrows| |].
  - intros x Hx. rewrite similarFilter_key in Hx by done.
    by apply andb_true_iff in Hx as [Hx _].
  - rewrite similarFilter_key by done. rewrite Hd. simpl.
    by apply bool_decide_eq_true_2.
Qed.

Lemma group_into_only clk userId n c d :
  wf c ->
  Candidate.recipient n = userId ->
  rowsWithKey (keyOf n) c = [d] ->
  atFind clk - groupWindow <= createdAt d ->
  groupSimilarNotifications clk userId n c =
  (Return (Some (groupedUpdate (atWrite clk) d (Candidate.type n) d)),
   {| docs := Replace.byId (_id d)
                (groupedUpdate (atWrite clk) d (Candidate.type n)) (docs c);
      nextId := nextId c |}).
Proof.
  intros [Hnodup _] Hrec Hrows Hwin. unfold groupSimilarNotifications.
  rewrite (findSimilar_only clk userId n c d) by done.
  destruct (filter_singleton_elem _ _ _ Hrows) as [Hin _].
  by apply writeGrouped_found.
Qed.

Lemma rows_after_byId k now s ty c d nid :
  rowsWithKey k c = [d] -> _id d = _id s ->
  rowsWithKey k
    {| docs := Replace.byId (_id s) (groupedUpdate now s ty) (docs c);
       nextId := nid |} = [groupedUpdate now s ty d].
Proof.
  intros Hrows Hid. unfold rowsWithKey in *. cbn [docs].
  rewrite rows_byId by (intros; apply groupedUpdate_key).
  rewrite Hrows. unfold Replace.byId. simpl.
  by rewrite bool_decide_eq_true_2.
Qed.

(** X6: an event with a message that is not empty, whose key has rows in
    the store, all of them created more than an hour before the event's
    query, does not touch them: it appends a row of its own, with count
    1, the event's message and the time of the write as creation time. *)
Theorem grouping_outside_window
    (clk : Clock) (userId : ObjectId) (n : Candidate.t) (c : Collection) :
  Candidate.recipient n = userId ->
  Candidate.message n <> EmptyString ->
  Forall (fun d => hasKey (keyOf n) d = true ->
                   createdAt d < atFind clk - groupWindow) (docs c) ->
  exists d,
    groupSimilarNotifications clk userId n c =
    (Return (Some d), {| docs := docs c ++ [d]; nextId := S (nextId c) |})
    /\ rowsWithKey (keyOf n) (groupSimilarNotifications clk userId n c).2 =
       rowsWithKey (keyOf n) c ++ [d]
    /\ countOf d = Some 1
    /\ message d = Candidate.message n
    /\ isRead d = false
    /\ createdAt d = atWrite clk.
Proof.
  intros Hrec Hmsg Hold. exists (created (atWrite clk) n c).
  assert (Hrun : groupSimilarNotifications clk userId n c =
    (Return (Some (created (atWrite clk) n c)),
     {| docs := docs c ++ [created (atWrite clk) n c];
        nextId := S (nextId c) |})).
  { unfold groupSimilarNotifications, findSimilar, findOne.
    rewrite find_none; [by apply writeGrouped_none|].
    eapply Forall_impl; [exact Hold|]. intros x Hx. simpl in Hx.
    rewrite similarFilter_key by done.
    destruct (hasKey (keyOf n) x); [|done]. simpl.
    apply bool_decide_eq_false_2. specialize (Hx eq_refl). lia. }
  split; [exact Hrun|]. rewrite Hrun. split; [|split; [|done]].
  - unfold rowsWithKey. cbn [snd docs]. rewrite List.filter_app.
    cbn [List.filter]. by rewrite hasKey_created.
  - apply countOf_created.
Qed.

(** X7: grouping an event never changes a stored document of another
    grouping key, and adds at most one document. *)
Theorem grouping_leaves_other_keys
    (clk : Clock) (userId : ObjectId) (n : Candidate.t) (c : Collection)
    (i : nat) (d : Notification) :
  wf c ->
  docs c !! i = Some d ->
  hasKey (userId, Candidate.type n, Candidate.resourceType n,
          Candidate.resourceId n) d = false ->
  docs (groupSimilarNotifications clk userId n c).2 !! i = Some d
  /\ (length (docs (groupSimilarNotifications clk userId n c).2)
      <= S (length (docs c)))%nat.
Proof.
  intros Hwf Hi Hkey. unfold groupSimilarNotifications.
  destruct (findSimilar (atFind clk) userId n c) as [s|] eqn:Hfind.
  - unfold findSimilar, findOne in Hfind.
    apply List.find_some in Hfind as [Hs Hmatch].
    apply similarFilter_hasKey in Hmatch as [Hskey _].
    apply list_elem_of_In in Hs.
    destruct Hwf as [Hnodup Hbelow].
    rewrite (writeGrouped_found _ n s s c Hnodup Hs eq_refl). cbn [snd docs].
    split.
    + unfold Replace.byId. change (List.map ?f ?l) with (f <$> l).
      rewrite list_lookup_fmap, Hi. simpl.
      rewrite bool_decide_eq_false_2; [done|].
      intros Hid. apply list_elem_of_lookup in Hs as [j Hj].
      assert (i = j) as ->.
      { eapply NoDup_lookup; [exact Hnodup| |].
        - rewrite list_lookup_fmap, Hi. reflexivity.
        - rewrite list_lookup_fmap, Hj. simpl. by rewrite Hid. }
      assert (d = s) as -> by congruence. congruence.
    + unfold Replace.byId. rewrite length_map. lia.
  - unfold writeGrouped, create. case_bool_decide; cbn [snd docs inserted].
    + split; [done|lia].
    + split; [by apply lookup_app_l_Some|].
      rewrite length_app. simpl. lia.
Qed.

(** X9: an event whose key has one row in the store, created within the
    last hour, is folded into that row.  No document is added; the row
    keeps its identifier, its creation time and the other properties of
    its [data]; it becomes unread; its count is the stored count plus
    one, a missing or zero count being taken as 1, as long as the new
    count is a safe integer; its message is the template of the event's
    type for the new count. *)
Theorem grouping_folds_into_existing_row
    (clk : Clock) (userId : ObjectId) (n : Candidate.t) (c : Collection)
    (d : Notification) :
  wf c ->
  Candidate.recipient n = userId ->
  rowsWithKey (keyOf n) c = [d] ->
  atFind clk - groupWindow <= createdAt d ->
  safeInteger (priorCount d + 1) ->
  exists d' count,
    (groupSimilarNotifications clk userId n c).1 = Return (Some d')
    /\ rowsWithKey (keyOf n) (groupSimilarNotifications clk userId n c).2
       = [d']
    /\ length (docs (groupSimilarNotifications clk userId n c).2)
       = length (docs c)
    /\ _id d' = _id d /\ createdAt d' = createdAt d /\ isRead d' = false
    /\ count = match countOf d with
               | Some k => if bool_decide (k = 0) then 2 else k + 1
               | None => 2
               end
    /\ countOf d' = Some count
    /\ message d' = generateGroupedMessage (Candidate.type n) count
    /\ (forall key, key <> "count" ->
          data d' ≫= (fun o => o !! key) = data d ≫= (fun o => o !! key)).
Proof.
  intros Hwf Hrec Hrows Hwin _.
  exists (groupedUpdate (atWrite clk) d (Candidate.type n) d),
         (priorCount d + 1).
  rewrite (group_into_only clk userId n c d) by done. cbn [fst snd].
  split; [done|]. split; [by apply rows_after_byId|].
  split; [cbn [docs]; unfold Replace.byId; apply length_map|].
  split; [done|]. split; [done|]. split; [done|].
  split.
  { unfold priorCount, countOf.
    destruct (data d ≫= _) as [k|]; [|done]. by case_bool_decide. }
  split; [apply countOf_groupedUpdate|]. split; [done|].
  intros key Hkey. simpl. rewrite lookup_insert_ne by done.
  unfold spread. by destruct (data d).
Qed.

(** ** Grouping: two events in flight on an existing row *)





(** ** Event handlers: what the listeners hand to the service *)

Lemma string_length_app (a b : string) :
  String.length (a +:+ b) = (String.length a + String.length b)%nat.
Proof. induction a as [|ch a IH]; simpl; [done|]. by rewrite IH. Qed.

Lemma string_length_prefix (m : nat) (s : string) :
  String.length (String.substring 0 m s) = Nat.min m (String.length s).
Proof.
  revert s. induction m as [|m IH]; intros s.
  - by destruct s.
  - destruct s as [|ch s]; simpl; [done|]. by rewrite IH.
Qed.

Lemma substring_prefix (m : nat) (s : string) :
  String.prefix (String.substring 0 m s) s = true.
Proof.
  revert s. induction m as [|m IH]; intros s.
  - by destruct s.
  - destruct s as [|ch s]; simpl; [done|].
    destruct (Ascii.ascii_dec ch ch); [apply IH|done].
Qed.

(** X11: a NEW_COMMENT event whose [authorId] and [videoOwnerId] are not
    the same value ([!==]) and whose text is an ASCII string makes the
    listener call the notification service once, with the owner as
    recipient and the author as sender, for the video.  The message is
    [New comment on your video: ] followed, between double quotes, by the
    quotation and three dots; the quotation is the text cut to its first
    50 characters, the whole text when it has no more. *)
Theorem new_comment_notifies_owner
    (createNotification :
       Events.NotificationArgs -> Collection -> Collection * Settlement)
    (data : Events.Payload) (c : Collection) (text : string) :
  data !! "authorId" <> data !! "videoOwnerId" ->
  data !! "commentText" = Some (Events.VStr text) ->
  Events.isAscii text = true ->
  exists quoted,
    Events.onNewComment createNotification data c =
    createNotification
      {| Events.recipient := data !! "videoOwnerId";
         Events.sender := data !! "authorId";
         Events.type := "COMMENT";
         Events.resourceId := data !! "videoId";
         Events.resourceType := "VIDEO";
         Events.message :=
           "New comment on your video: " +:+ Events.quote +:+ quoted
           +:+ "..." +:+ Events.quote |} c
    /\ String.prefix quoted text = true
    /\ String.length quoted = Nat.min 50 (String.length text).
Proof.
  intros Hother Htext _. exists (String.substring 0 50 text).
  split; [|split].
  - unfold Events.onNewComment.
    rewrite bool_decide_eq_true_2 by done. by rewrite Htext.
  - apply substring_prefix.
  - apply string_length_prefix.
Qed.

(** X12: a comment by somebody other than the owner whose text is missing
    or is not a string makes the listener reject with a [TypeError]
    before the notification service is called: the store is as it was. *)
Theorem new_comment_without_text_rejects
    (createNotification :
       Events.NotificationArgs -> Collection -> Collection * Settlement)
    (data : Events.Payload) (c : Collection) :
  data !! "authorId" <> data !! "videoOwnerId" ->
  (forall text, data !! "commentText" <> Some (Events.VStr text)) ->
  exists msg,
    Events.onNewComment createNotification data c =
    (c, Rejected (TypeError msg)).
Proof.
  intros Hother Htext. unfold Events.onNewComment.
  rewrite bool_decide_eq_true_2 by done.
  destruct (data !! "commentText") as [[i|s]|]; simpl.
  - eexists. reflexivity.
  - exfalso. by apply (Htext s).
  - eexists. reflexivity.
Qed.

(** X13: [registerEventHandlers] listens to NEW_COMMENT and
    NEW_SUBSCRIPTION only.  Publishing any other event type (NEW_LIKE,
    NEW_VIDEO, VIDEO_PROCESSED, ...) except Node's own ['error'] returns
    normally, calls no listener, leaves no promise behind and leaves the
    store as it was. *)
Theorem other_event_types_are_dropped
    (createNotification :
       Events.NotificationArgs -> Collection -> Collection * Settlement)
    (eventType : string) (data : Events.Payload) (c : Collection) :
  eventType <> Events.NEW_COMMENT ->
  eventType <> Events.NEW_SUBSCRIPTION ->
  eventType <> "error" ->
  Events.emitEvent eventType data
    (Events.registerEventHandlers createNotification ∅) c =
  {| Events.completion := Return tt;
     Events.called := 0;
     Events.pending := [];
     Events.store := c |}.
Proof.
  intros Hc Hs He. unfold Events.emitEvent, Events.emit,
    Events.registerEventHandlers, Events.on.
  rewrite !lookup_insert_ne by done. rewrite lookup_empty.
  cbn [default from_option id]. simpl.
  by rewrite bool_decide_eq_false_2.
Qed.

Lemma on_lookup_same eventType l (em : Events.EventEmitter) :
  Events.on eventType l em !! eventType =
  Some (default [] (em !! eventType) ++ [l]).
Proof. unfold Events.on. apply lookup_insert_eq. Qed.

Lemma on_lookup_other eventType other l (em : Events.EventEmitter) :
  eventType <> other ->
  Events.on eventType l em !! other = em !! other.
Proof. intros Hne. unfold Events.on. by apply lookup_insert_ne. Qed.

Lemma emitEvent_async bodies eventType (data : Events.Payload)
    (em : Events.EventEmitter) c :
  em !! eventType = Some (List.map Events.async bodies) ->
  bodies <> [] ->
  Events.emitEvent eventType data em c =
  {| Events.completion := Return tt;
     Events.called := length bodies;
     Events.pending := List.map (fun b => b data) bodies;
     Events.store := c |}.
Proof.
  intros Hem Hne. unfold Events.emitEvent, Events.emit. rewrite Hem.
  destruct bodies as [|b bodies]; [done|].
  cbn [from_option id List.map].
  change (Events.async b :: List.map Events.async bodies)
    with (List.map Events.async (b :: bodies)).
  by rewrite callListeners_async.
Qed.

(** X14: registering the handlers is not idempotent.  After
    [registerEventHandlers] has run twice, one NEW_COMMENT event calls two
    listeners: [emitEvent] returns normally and leaves two runs of the
    comment handler's body pending on the same payload, each of which
    will call the notification service on its own. *)
Theorem registering_twice_handles_twice
    (createNotification :
       Events.NotificationArgs -> Collection -> Collection * Settlement)
    (data : Events.Payload) (c : Collection) :
  let r := Events.emitEvent Events.NEW_COMMENT data
             (Events.registerEventHandlers createNotification
                (Events.registerEventHandlers createNotification ∅)) c in
  Events.completion r = Return tt
  /\ Events.called r = 2%nat
  /\ Events.pending r = [Events.onNewComment createNotification data;
                         Events.onNewComment createNotification data].
Proof.
  intros r. subst r.
  by rewrite (emitEvent_async
                [Events.onNewComment createNotification;
                 Events.onNewComment createNotification]).
Qed.

Lemma callListeners_first_throw (before : list Events.Listener)
    (l : Events.Listener) (after : list Events.Listener)
    (data : Events.Payload) e :
  Forall (fun f : Events.Listener =>
            forall c0 e0, (f data c0).2 <> Events.Threw e0) before ->
  (forall c0, (l data c0).2 = Events.Threw e) ->
  forall n dropped c,
    Events.completion
      (Events.callListeners (before ++ l :: after) data n dropped c) = Throw e
    /\ Events.called
         (Events.callListeners (before ++ l :: after) data n dropped c) =
       S (n + length before).
Proof.
  intros Hb Hl.
  induction Hb as [|f before Hf _ IH]; intros n dropped c; simpl.
  - specialize (Hl c). destruct (l data c) as [c1 r]. simpl in Hl. subst r.
    simpl. by rewrite Nat.add_0_r.
  - pose proof (Hf c) as Hfc. destruct (f data c) as [c1 r]. simpl in Hfc.
    destruct r as [|e0|task].
    + destruct (IH (S n) dropped c1) as [-> ->]. split; [done|]. f_equal. lia.
    + exfalso. by apply (Hfc e0).
    + destruct (IH (S n) (dropped ++ [task]) c1) as [-> ->].
      split; [done|]. f_equal. lia.
Qed.

Lemma emit_listeners eventType (data : Events.Payload)
    (em : Events.EventEmitter) c ls :
  em !! eventType = Some ls -> ls <> [] ->
  Events.emit eventType data em c = Events.callListeners ls data 0 [] c.
Proof.
  intros Hem Hne. unfold Events.emit. rewrite Hem. by destruct ls.
Qed.

(** X15: [emitEvent] has no [try].  When a listener of the event throws
    synchronously, and the listeners registered before it do not, the
    error reaches the caller of [emitEvent], and the listeners registered
    after the throwing one are not called. *)
Theorem emitEvent_sync_throw_propagates
    (eventType : string) (data : Events.Payload) (em : Events.EventEmitter)
    (c : Collection) (before after : list Events.Listener)
    (l : Events.Listener) (e : Error) :
  em !! eventType = Some (before ++ l :: after) ->
  Forall (fun f : Events.Listener =>
            forall c0 e0, (f data c0).2 <> Events.Threw e0) before ->
  (forall c0, (l data c0).2 = Events.Threw e) ->
  Events.completion (Events.emitEvent eventType data em c) = Throw e
  /\ Events.called (Events.emitEvent eventType data em c) =
     S (length before).
Proof.
  intros Hem Hb Hl.
  destruct (callListeners_first_throw before l after data e Hb Hl 0%nat [] c)
    as [Hc Hn].
  unfold Events.emitEvent.
  rewrite (emit_listeners eventType data em c (before ++ l :: after) Hem)
    by (by destruct before).
  simpl. by rewrite Hc, Hn.
Qed.

(** ** Fan-out: connecting, closing, reporting *)

Lemma connection_refused verify ws token s :
  verify token = None ->
  Fanout.connection verify ws token s =
  {| Fanout.clients := Fanout.clients s;
     Fanout.sockets :=
       <[ws := {| Fanout.readyState := Fanout.CLOSED; Fanout.sent := [];
                  Fanout.closeCode := Some 1008; Fanout.userId := None |}]>
         (Fanout.sockets s) |}.
Proof.
  intros Hv. unfold Fanout.connection, Fanout.close. rewrite Hv. simpl.
  f_equal. rewrite alter_insert_eq. reflexivity.
Qed.

(** X16: a connection whose token does not verify is closed with code
    1008; it is not entered in the registry, it is sent no welcome, and no
    later publish, to whichever user, puts anything on it. *)
Theorem connection_with_bad_token
    (verify : string -> option ObjectId) (ws : Fanout.Handle)
    (token : string) (s : Fanout.Server) (user : ObjectId)
    (n : Notification) :
  verify token = None ->
  Fanout.clients (Fanout.connection verify ws token s) = Fanout.clients s
  /\ Fanout.sockets (Fanout.connection verify ws token s) !! ws =
     Some {| Fanout.readyState := Fanout.CLOSED; Fanout.sent := [];
             Fanout.closeCode := Some 1008; Fanout.userId := None |}
  /\ Fanout.sockets
       (Fanout.serverAfter
          (Fanout.sendNotificationToUser user n
             (Fanout.connection verify ws token s))) !! ws =
     Some {| Fanout.readyState := Fanout.CLOSED; Fanout.sent := [];
             Fanout.closeCode := Some 1008; Fanout.userId := None |}.
Proof.
  intros Hv. rewrite (connection_refused verify ws token s Hv).
  set (closed := {| Fanout.readyState := Fanout.CLOSED; Fanout.sent := [];
                    Fanout.closeCode := Some 1008; Fanout.userId := None |}).
  split; [done|]. split; [apply lookup_insert_eq|].
  unfold Fanout.sendNotificationToUser. cbn [Fanout.clients Fanout.sockets].
  destruct (Fanout.clients s !! user) as [client|];
    [|apply lookup_insert_eq].
  destruct (decide (client = ws)) as [->|Hne].
  - rewrite lookup_insert_eq. simpl. apply lookup_insert_eq.
  - rewrite lookup_insert_ne by done.
    destruct (Fanout.sockets s !! client) as [w|]; [|apply lookup_insert_eq].
    case_bool_decide; [|apply lookup_insert_eq].
    cbn [Fanout.serverAfter Fanout.send Fanout.sockets].
    rewrite lookup_alter_ne by done. apply lookup_insert_eq.
Qed.

(** X17: a user connects twice and the first of the two sockets closes.
    Its close handler deletes the user's registry entry, which by then
    points to the second socket: the second socket is still open, yet a
    publish to the user returns [false] and sends nothing. *)
Theorem closing_first_socket_unregisters_second
    (verify : string -> option ObjectId) (s0 : Fanout.Server)
    (w1 w2 : Fanout.Handle) (t1 t2 : string) (R : ObjectId)
    (n : Notification) :
  verify t1 = Some R -> verify t2 = Some R -> w1 <> w2 ->
  let s := Fanout.onClose w1
             (Fanout.connection verify w2 t2
                (Fanout.connection verify w1 t1 s0)) in
  Fanout.clients s !! R = None
  /\ Fanout.sockets s !! w2 = Some (Fanout.welcomed R)
  /\ Fanout.returned (Fanout.sendNotificationToUser R n s) = Return false
  /\ Fanout.serverAfter (Fanout.sendNotificationToUser R n s) = s.
Proof.
  intros H1 H2 Hw s. subst s.
  rewrite (connection_verified verify w1 t1 R s0 H1).
  rewrite (connection_verified verify w2 t2 R _ H2).
  unfold Fanout.onClose. cbn [Fanout.clients Fanout.sockets].
  rewrite lookup_insert_ne by done. rewrite lookup_insert_eq.
  cbn [mbind option_bind Fanout.welcomed Fanout.userId].
  cbn [Fanout.clients Fanout.sockets].
  assert (Hc : delete R (<[R:=w2]> (<[R:=w1]> (Fanout.clients s0))) !! R
               = None) by apply lookup_delete_eq.
  split; [exact Hc|]. split.
  - rewrite lookup_alter_ne by done. apply lookup_insert_eq.
  - unfold Fanout.sendNotificationToUser. cbn [Fanout.clients].
    by rewrite Hc.
Qed.

(** X18: a user who was not connected connects and closes the connection:
    the registry is what it was before, the socket is closed, and a
    publish to the user returns [false]. *)
Theorem connect_then_close
    (verify : string -> option ObjectId) (s0 : Fanout.Server)
    (ws : Fanout.Handle) (token : string) (R : ObjectId) (n : Notification) :
  verify token = Some R ->
  Fanout.clients s0 !! R = None ->
  let s := Fanout.onClose ws (Fanout.connection verify ws token s0) in
  Fanout.clients s = Fanout.clients s0
  /\ Fanout.readyState <$> (Fanout.sockets s !! ws) = Some Fanout.CLOSED
  /\ Fanout.returned (Fanout.sendNotificationToUser R n s) = Return false.
Proof.
  intros Hv Hnone s. subst s.
  rewrite (connection_verified verify ws token R s0 Hv).
  unfold Fanout.onClose. cbn [Fanout.clients Fanout.sockets].
  rewrite lookup_insert_eq.
  cbn [mbind option_bind Fanout.welcomed Fanout.userId].
  cbn [Fanout.clients Fanout.sockets].
  rewrite delete_insert_id by done.
  split; [done|]. split.
  - by rewrite lookup_alter_eq, lookup_insert_eq.
  - unfold Fanout.sendNotificationToUser. cbn [Fanout.clients].
    by rewrite Hnone.
Qed.

(** X19: [sendNotificationToUser] never throws and never edits the
    registry.  It returns [true] exactly when the registry holds an open
    socket for the user, and then that socket, and no other, has the
    notification appended to what was sent; when it returns [false] the
    server is as it was. *)
Theorem sendNotificationToUser_report
    (user : ObjectId) (n : Notification) (s : Fanout.Server) :
  Fanout.clients (Fanout.serverAfter (Fanout.sendNotificationToUser user n s))
  = Fanout.clients s
  /\ (Fanout.returned (Fanout.sendNotificationToUser user n s) = Return true
      /\ (exists client w,
            Fanout.clients s !! user = Some client
            /\ Fanout.sockets s !! client = Some w
            /\ Fanout.readyState w = Fanout.OPEN
            /\ Fanout.sockets
                 (Fanout.serverAfter (Fanout.sendNotificationToUser user n s))
               = <[client :=
                     {| Fanout.readyState := Fanout.OPEN;
                        Fanout.sent := Fanout.sent w ++ [Fanout.notification n];
                        Fanout.closeCode := Fanout.closeCode w;
                        Fanout.userId := Fanout.userId w |}]>
                   (Fanout.sockets s))
      \/ Fanout.returned (Fanout.sendNotificationToUser user n s)
         = Return false
         /\ Fanout.serverAfter (Fanout.sendNotificationToUser user n s) = s
         /\ (forall client w,
               Fanout.clients s !! user = Some client ->
               Fanout.sockets s !! client = Some w ->
               Fanout.readyState w <> Fanout.OPEN)).
Proof.
  unfold Fanout.sendNotificationToUser.
  destruct (Fanout.clients s !! user) as [client|] eqn:Hc.
  - destruct (Fanout.sockets s !! client) as [w|] eqn:Hw.
    + case_bool_decide as Hopen.
      * split; [done|]. left. split; [done|].
        exists client, w. repeat (split; [done|]).
        cbn [Fanout.serverAfter Fanout.send Fanout.sockets].
        apply map_eq. intros h. destruct (decide (client = h)) as [<-|Hne].
        -- rewrite lookup_alter_eq, lookup_insert_eq, Hw. simpl.
           rewrite bool_decide_eq_true_2 by done. by rewrite Hopen.
        -- by rewrite lookup_alter_ne, lookup_insert_ne.
      * split; [done|]. right. repeat (split; [done|]).
        intros client' w' [= <-] Hw'. congruence.
    + split; [done|]. right. repeat (split; [done|]).
      intros client' w' [= <-] Hw'. congruence.
  - split; [done|]. right. repeat (split; [done|]). intros ? ? [=].
Qed.

(** ** The front-end context *)

Lemma act_keeps_bounds a st :
  0 <= Client.unreadCount st <= Z.of_nat (length (Client.notifications st)) ->
  0 <= Client.unreadCount (Client.act a st)
    <= Z.of_nat (length (Client.notifications (Client.act a st))).
Proof.
  intros Hst. destruct a as [n|rejects i]; simpl.
  - lia.
  - unfold Client.markAsRead. destruct rejects; [done|]. simpl.
    rewrite length_map. lia.
Qed.

Lemma run_keeps_bounds actions st :
  0 <= Client.unreadCount st <= Z.of_nat (length (Client.notifications st)) ->
  0 <= Client.unreadCount (Client.run actions st)
    <= Z.of_nat (length (Client.notifications (Client.run actions st))).
Proof.
  revert st. induction actions as [|a actions IH]; intros st Hst; [done|].
  simpl. apply IH. by apply act_keeps_bounds.
Qed.

(** X21: whatever notifications arrive over the socket and whatever is
    marked read, one thing after the other and whether or not the requests
    reach the server, the unread badge of the provider is never negative
    and never exceeds the number of notifications in its list. *)
Theorem unreadCount_bounds (actions : list Client.Action) :
  0 <= Client.unreadCount (Client.run actions Client.initial)
    <= Z.of_nat
         (length (Client.notifications (Client.run actions Client.initial))).
Proof. apply run_keeps_bounds. simpl. lia. Qed.

Lemma read_read n : Client.read (Client.read n) = Client.read n.
Proof. reflexivity. Qed.

(** X22: marking the same notification read a second time leaves the list
    as the first call left it but lowers the badge again; and marking an
    identifier that is not in the list changes no notification and still
    lowers the badge.  The badge only stops at zero. *)
Theorem markAsRead_counts_every_call
    (notificationId : ObjectId) (st : Client.State) :
  Client.notifications
    (Client.markAsRead false notificationId
       (Client.markAsRead false notificationId st)) =
  Client.notifications (Client.markAsRead false notificationId st)
  /\ Client.unreadCount
       (Client.markAsRead false notificationId
          (Client.markAsRead false notificationId st)) =
     Z.max 0 (Client.unreadCount st - 2)
  /\ (Forall (fun n => _id n <> notificationId) (Client.notifications st) ->
      Client.notifications (Client.markAsRead false notificationId st) =
      Client.notifications st
      /\ Client.unreadCount (Client.markAsRead false notificationId st) =
         Z.max 0 (Client.unreadCount st - 1)).
Proof.
  unfold Client.markAsRead. cbn [Client.notifications Client.unreadCount].
  split; [|split].
  - rewrite List.map_map. apply List.map_ext. intros n.
    destruct (bool_decide (_id n = notificationId)) eqn:Hn.
    + change (_id (Client.read n)) with (_id n). by rewrite Hn.
    + by rewrite Hn.
  - lia.
  - intros Hout. split; [|done].
    rewrite <- (List.map_id (Client.notifications st)) at 2.
    apply List.map_ext_in. intros n Hn.
    rewrite bool_decide_eq_false_2; [done|].
    eapply Forall_forall in Hout; [exact Hout|]. by apply list_elem_of_In.
Qed.

(** ** The comment controller *)

(** X23: a comment on a video that does not exist is created and stays
    created, no event is published, and the request is answered with
    status 500. *)
Theorem addComment_missing_video
    (Db : Type)
    (createComment : Controller.Request -> Db -> Db * Completion ObjectId)
    (findVideo :
       option Events.Value -> Db -> Completion (option (option Events.Value)))
    (req : Controller.Request) (em : Events.EventEmitter)
    (d d' : Db) (comment : ObjectId) (c : Collection) :
  createComment req d = (d', Return comment) ->
  findVideo (Controller.videoId req) d' = Return None ->
  Controller.addComment Db createComment findVideo req em d c =
  {| Controller.response := Controller.Failed 500 "Failed to add comment";
     Controller.db := d';
     Controller.emitted := None |}.
Proof.
  intros Hcreate Hfind. unfold Controller.addComment.
  by rewrite Hcreate, Hfind.
Qed.

(** X24: when the listeners of NEW_COMMENT are [async] functions, a
    comment on an existing video is answered with status 201 and the
    comment, every listener is called, and no failure of a listener
    changes the answer. *)
Theorem addComment_answers_created
    (Db : Type)
    (createComment : Controller.Request -> Db -> Db * Completion ObjectId)
    (findVideo :
       option Events.Value -> Db -> Completion (option (option Events.Value)))
    (req : Controller.Request) (em : Events.EventEmitter)
    (d d' : Db) (comment : ObjectId) (owner : option Events.Value)
    (c : Collection)
    (bodies : list (Events.Payload -> Collection -> Collection * Settlement)) :
  createComment req d = (d', Return comment) ->
  findVideo (Controller.videoId req) d' = Return (Some owner) ->
  em !! Events.NEW_COMMENT = Some (List.map Events.async bodies) ->
  Controller.response
    (Controller.addComment Db createComment findVideo req em d c) =
  Controller.Created comment
  /\ Controller.db
       (Controller.addComment Db createComment findVideo req em d c) = d'
  /\ Events.called <$>
       Controller.emitted
         (Controller.addComment Db createComment findVideo req em d c) =
     Some (length bodies).
Proof.
  intros Hcreate Hfind Hem. unfold Controller.addComment.
  rewrite Hcreate, Hfind.
  destruct bodies as [|b bodies].
  - unfold Events.emitEvent, Events.emit. rewrite Hem. cbn. done.
  - rewrite (emitEvent_async (b :: bodies) Events.NEW_COMMENT _ em c Hem)
      by discriminate.
    cbn. done.
Qed.

(** X25: when a listener of NEW_COMMENT throws synchronously, and the
    listeners registered before it do not, a comment on an existing video
    is created and stays created, but the request is answered with status
    500. *)
Theorem addComment_listener_throws
    (Db : Type)
    (createComment : Controller.Request -> Db -> Db * Completion ObjectId)
    (findVideo :
       option Events.Value -> Db -> Completion (option (option Events.Value)))
    (req : Controller.Request) (em : Events.EventEmitter)
    (d d' : Db) (comment : ObjectId) (owner : option Events.Value)
    (c : Collection) (before after : list Events.Listener)
    (l : Events.Listener) (e : Error) :
  createComment req d = (d', Return comment) ->
  findVideo (Controller.videoId req) d' = Return (Some owner) ->
  em !! Events.NEW_COMMENT = Some (before ++ l :: after) ->
  Forall (fun f : Events.Listener =>
            forall c0 e0,
              (f (Controller.commentEvent req comment owner) c0).2
              <> Events.Threw e0) before ->
  (forall c0,
     (l (Controller.commentEvent req comment owner) c0).2 = Events.Threw e) ->
  Controller.response
    (Controller.addComment Db createComment findVideo req em d c) =
  Controller.Failed 500 "Failed to add comment"
  /\ Controller.db
       (Controller.addComment Db createComment findVideo req em d c) = d'.
Proof.
  intros Hcreate Hfind Hem Hb Hl. unfold Controller.addComment.
  rewrite Hcreate, Hfind.
  destruct (callListeners_first_throw before l after
              (Controller.commentEvent req comment owner) e Hb Hl 0%nat [] c)
    as [Hc _].
  unfold Events.emitEvent.
  rewrite (emit_listeners Events.NEW_COMMENT _ em c (before ++ l :: after) Hem)
    by (by destruct before).
  simpl. rewrite Hc. done.
Qed.

Lemma commentEvent_lookups (req : Controller.Request) comment owner :
  Controller.commentEvent req comment owner !! "videoId"
  = Controller.videoId req
  /\ Controller.commentEvent req comment owner !! "authorId"
     = Some (Controller.userId req)
  /\ Controller.commentEvent req comment owner !! "videoOwnerId" = owner
  /\ Controller.commentEvent req comment owner !! "commentText"
     = Controller.content req.
Proof.
  unfold Controller.commentEvent, Controller.put.
  destruct (Controller.videoId req), owner, (Controller.content req);
    by simplify_map_eq.
Qed.

(** X26: with the handlers of [registerEventHandlers] as only listeners,
    the owner of a video who comments on it gets status 201, and the
    comment listener is left pending with a call of the notification
    service that names the owner as recipient and as sender: [req.user._id]
    and [video.owner] are two [ObjectId] objects, which [!==] tells
    apart although they hold the same id. *)
Theorem addComment_by_owner
    (Db : Type)
    (createComment : Controller.Request -> Db -> Db * Completion ObjectId)
    (findVideo :
       option Events.Value -> Db -> Completion (option (option Events.Value)))
    (createNotification :
       Events.NotificationArgs -> Collection -> Collection * Settlement)
    (req : Controller.Request) (d d' : Db) (comment : ObjectId)
    (c : Collection) (user : ObjectId) (author owner : Events.Ref)
    (text : string) :
  createComment req d = (d', Return comment) ->
  Controller.userId req = Events.VObjectId author user ->
  findVideo (Controller.videoId req) d' =
    Return (Some (Some (Events.VObjectId owner user))) ->
  author <> owner ->
  Controller.content req = Some (Events.VStr text) ->
  Controller.response
    (Controller.addComment Db createComment findVideo req
       (Events.registerEventHandlers createNotification ∅) d c) =
  Controller.Created comment
  /\ exists task message,
       Events.pending <$>
         Controller.emitted
           (Controller.addComment Db createComment findVideo req
              (Events.registerEventHandlers createNotification ∅) d c) =
       Some [task]
       /\ forall c',
            task c' =
            createNotification
              {| Events.recipient := Some (Events.VObjectId owner user);
                 Events.sender := Some (Events.VObjectId author user);
                 Events.type := "COMMENT";
                 Events.resourceId := Controller.videoId req;
                 Events.resourceType := "VIDEO";
                 Events.message := message |} c'.
Proof.
  intros Hcreate Huser Hfind Hne Htext. unfold Controller.addComment.
  rewrite Hcreate, Hfind.
  rewrite (emitEvent_async [Events.onNewComment createNotification]
             Events.NEW_COMMENT _ _ c) by (reflexivity || discriminate).
  cbn [Events.completion Controller.response Controller.emitted fmap
       option_fmap option_map Events.pending List.map].
  split; [done|].
  exists (Events.onNewComment createNotification
            (Controller.commentEvent req comment
               (Some (Events.VObjectId owner user)))),
         ("New comment on your video: " +:+ Events.quote
          +:+ String.substring 0 50 text +:+ "..." +:+ Events.quote).
  split; [reflexivity|]. intros c'.
  unfold Events.onNewComment.
  destruct (commentEvent_lookups req comment
              (Some (Events.VObjectId owner user))) as (-> & -> & -> & ->).
  rewrite Huser, Htext. cbn [Events.substring50].
  rewrite bool_decide_eq_true_2; [done|]. congruence.
Qed.

(** ** Preferences out of the box *)

Lemma flags_lookup (a b c d : bool) (ch : string) :
  Defaults.flags a b c d !! ch =
  if decide (ch = "inApp") then Some a
  else if decide (ch = "email") then Some b
  else if decide (ch = "push") then Some c
  else if decide (ch = "sms") then Some d
  else None.
Proof.
  unfold Defaults.flags.
  repeat (rewrite lookup_insert; case_decide; subst;
          [repeat case_decide; congruence|]).
  rewrite lookup_empty. repeat case_decide; congruence.
Qed.

Lemma defaultPreferences_stored user :
  Preferences.stored (Defaults.defaultPreferences user).
Proof.
  intros ty s Hs. unfold Defaults.defaultPreferences in Hs.
  cbn [Preferences.types] in Hs.
  repeat (apply lookup_insert_Some in Hs as [[_ <-]|[_ Hs]]; [by eexists|]).
  by rewrite lookup_empty in Hs.
Qed.

(** X10: for a user whose preference record holds the schema defaults,
    and for the channels of the schema (inApp, email, push, sms):
    comments and subscriptions are delivered in the app, by email and by
    push, likes in the app only; nothing goes out by SMS, and a type that
    is not a key of the record (the names 'COMMENT', 'LIKE', ... of the
    notification schema among them) is delivered nowhere. *)
Theorem default_preferences_permissions
    (user : ObjectId) (notificationType channel : string) :
  channel ∈ Preferences.channelNames ->
  Preferences.shouldDeliverToChannel (Some (Defaults.defaultPreferences user))
    notificationType channel =
  Return
    ((bool_decide (notificationType = "comments")
      || bool_decide (notificationType = "subscriptions"))
     && (bool_decide (channel = "inApp") || bool_decide (channel = "email")
         || bool_decide (channel = "push"))
     || bool_decide (notificationType = "likes")
        && bool_decide (channel = "inApp")).
Proof.
  intros _.
  rewrite shouldDeliverToChannel_flags by apply defaultPreferences_stored.
  f_equal.
  unfold Preferences.typeEnabled, Preferences.globalEnabled,
    Preferences.channelOverride, Defaults.defaultPreferences.
  cbn [Preferences.types Preferences.channels].
  rewrite !lookup_insert, lookup_empty, !flags_lookup.
  destruct (decide ("comments" = notificationType)) as [<-|Hc].
  { cbn [TypeSettings.enabled TypeSettings.channels mbind option_bind].
    rewrite !flags_lookup.
    repeat case_decide; repeat case_bool_decide; subst; simpl;
      congruence || done. }
  destruct (decide ("likes" = notificationType)) as [<-|Hl].
  { cbn [TypeSettings.enabled TypeSettings.channels mbind option_bind].
    rewrite !flags_lookup.
    repeat case_decide; repeat case_bool_decide; subst; simpl;
      congruence || done. }
  destruct (decide ("subscriptions" = notificationType)) as [<-|Hs].
  { cbn [TypeSettings.enabled TypeSettings.channels mbind option_bind].
    rewrite !flags_lookup.
    repeat case_decide; repeat case_bool_decide; subst; simpl;
      congruence || done. }
  rewrite (bool_decide_eq_false_2 (notificationType = "comments"))
    by congruence.
  rewrite (bool_decide_eq_false_2 (notificationType = "subscriptions"))
    by congruence.
  rewrite (bool_decide_eq_false_2 (notificationType = "likes"))
    by congruence.
  reflexivity.
Qed.

(** * The further properties at sample inputs *)

Import Samples.

Lemma markAsRead_by_recipient_sample :
  ReadStatus.markAsRead 5000 (_id stored) (recipient stored) oneStored =
  (Some (ReadStatus.setRead 5000 stored),
   {| docs := <[0%nat := ReadStatus.setRead 5000 stored]> (docs oneStored);
      nextId := nextId oneStored |})
  /\ isRead (ReadStatus.setRead 5000 stored) = true
  /\ (ReadStatus.getUnreadCount (recipient stored)
        (ReadStatus.markAsRead 5000 (_id stored) (recipient stored)
           oneStored).2
      + (if isRead stored then 0 else 1) =
      ReadStatus.getUnreadCount (recipient stored) oneStored)%nat.
Proof.
  apply (markAsRead_by_recipient 5000 oneStored 0%nat stored).
  - exact wf_oneStored.
  - reflexivity.
Defined.

Lemma grouping_outside_window_sample :
  exists d,
    groupSimilarNotifications muchLater 7%nat (comment "Nice") oneStored =
    (Return (Some d), {| docs := docs oneStored ++ [d];
                         nextId := S (nextId oneStored) |})
    /\ rowsWithKey (keyOf (comment "Nice"))
         (groupSimilarNotifications muchLater 7%nat (comment "Nice")
            oneStored).2 =
       rowsWithKey (keyOf (comment "Nice")) oneStored ++ [d]
    /\ countOf d = Some 1
    /\ message d = Candidate.message (comment "Nice")
    /\ isRead d = false
    /\ createdAt d = atWrite muchLater.
Proof.
  apply (grouping_outside_window muchLater 7%nat (comment "Nice") oneStored).
  - reflexivity.
  - discriminate.
  - constructor; [|constructor]. intros _. simpl. unfold groupWindow. lia.
Defined.

Lemma grouping_leaves_other_keys_sample :
  docs (groupSimilarNotifications soon 7%nat (like "Alice liked your video")
          oneStored).2 !! 0%nat = Some stored
  /\ (length (docs (groupSimilarNotifications soon 7%nat
                      (like "Alice liked your video") oneStored).2)
      <= S (length (docs oneStored)))%nat.
Proof.
  apply (grouping_leaves_other_keys soon 7%nat
           (like "Alice liked your video") oneStored 0%nat stored).
  - exact wf_oneStored.
  - reflexivity.
  - reflexivity.
Defined.

Lemma grouping_folds_into_existing_row_sample :
  exists d' count,
    (groupSimilarNotifications soon 7%nat (comment "Nice") oneStored).1
    = Return (Some d')
    /\ rowsWithKey (keyOf (comment "Nice"))
         (groupSimilarNotifications soon 7%nat (comment "Nice") oneStored).2
       = [d']
    /\ length (docs (groupSimilarNotifications soon 7%nat (comment "Nice")
                       oneStored).2)
       = length (docs oneStored)
    /\ _id d' = _id stored /\ createdAt d' = createdAt stored
    /\ isRead d' = false
    /\ count = match countOf stored with
               | Some k => if bool_decide (k = 0) then 2 else k + 1
               | None => 2
               end
    /\ countOf d' = Some count
    /\ message d' =
       generateGroupedMessage (Candidate.type (comment "Nice")) count
    /\ (forall key, key <> "count" ->
          data d' ≫= (fun o => o !! key) =
          data stored ≫= (fun o => o !! key)).
Proof.
  apply (grouping_folds_into_existing_row soon 7%nat (comment "Nice")
           oneStored stored).
  - exact wf_oneStored.
  - reflexivity.
  - reflexivity.
  - simpl. unfold groupWindow. lia.
  - unfold safeInteger. vm_compute. split; reflexivity.
Defined.


Lemma new_comment_notifies_owner_sample :
  exists quoted,
    Events.onNewComment createNotification otherComment emptyCollection =
    createNotification
      {| Events.recipient := otherComment !! "videoOwnerId";
         Events.sender := otherComment !! "authorId";
         Events.type := "COMMENT";
         Events.resourceId := otherComment !! "videoId";
         Events.resourceType := "VIDEO";
         Events.message :=
           "New comment on your video: " +:+ Events.quote +:+ quoted
           +:+ "..." +:+ Events.quote |} emptyCollection
    /\ String.prefix quoted "Great video" = true
    /\ String.length quoted = Nat.min 50 (String.length "Great video").
Proof.
  apply (new_comment_notifies_owner createNotification otherComment
           emptyCollection "Great video").
  - vm_compute. discriminate.
  - reflexivity.
  - reflexivity.
Defined.

Lemma new_comment_without_text_rejects_sample :
  exists msg,
    Events.onNewComment createNotification brokenComment emptyCollection =
    (emptyCollection, Rejected (TypeError msg)).
Proof.
  apply (new_comment_without_text_rejects createNotification brokenComment
           emptyCollection).
  - vm_compute. discriminate.
  - intros text. vm_compute. discriminate.
Defined.

Lemma other_event_types_are_dropped_like :
  Events.emitEvent Events.NEW_LIKE otherComment
    (Events.registerEventHandlers createNotification ∅) emptyCollection =
  {| Events.completion := Return tt;
     Events.called := 0;
     Events.pending := [];
     Events.store := emptyCollection |}.
Proof.
  apply (other_event_types_are_dropped createNotification Events.NEW_LIKE
           otherComment emptyCollection).
  - discriminate.
  - discriminate.
  - discriminate.
Defined.

Lemma emitEvent_sync_throw_propagates_sample :
  Events.completion
    (Events.emitEvent Events.NEW_COMMENT otherComment throwing emptyCollection)
  = Throw (OtherError "boom")
  /\ Events.called
       (Events.emitEvent Events.NEW_COMMENT otherComment throwing
          emptyCollection) = S (length (@nil Events.Listener)).
Proof.
  apply (emitEvent_sync_throw_propagates Events.NEW_COMMENT otherComment
           throwing emptyCollection [] [quiet] thrower (OtherError "boom")).
  - reflexivity.
  - constructor.
  - intros c0. reflexivity.
Defined.

Lemma connection_with_bad_token_sample :
  Fanout.clients (Fanout.connection verify 12%nat "forged" twoDevices) =
  Fanout.clients twoDevices
  /\ Fanout.sockets (Fanout.connection verify 12%nat "forged" twoDevices)
       !! 12%nat =
     Some {| Fanout.readyState := Fanout.CLOSED; Fanout.sent := [];
             Fanout.closeCode := Some 1008; Fanout.userId := None |}
  /\ Fanout.sockets
       (Fanout.serverAfter
          (Fanout.sendNotificationToUser 7%nat stored
             (Fanout.connection verify 12%nat "forged" twoDevices)))
       !! 12%nat =
     Some {| Fanout.readyState := Fanout.CLOSED; Fanout.sent := [];
             Fanout.closeCode := Some 1008; Fanout.userId := None |}.
Proof.
  apply (connection_with_bad_token verify 12%nat "forged" twoDevices 7%nat
           stored).
  reflexivity.
Defined.

Lemma closing_first_socket_unregisters_second_sample :
  let s := Fanout.onClose 10%nat
             (Fanout.connection verify 11%nat "token-of-7"
                (Fanout.connection verify 10%nat "token-of-7" Fanout.empty)) in
  Fanout.clients s !! 7%nat = None
  /\ Fanout.sockets s !! 11%nat = Some (Fanout.welcomed 7%nat)
  /\ Fanout.returned (Fanout.sendNotificationToUser 7%nat stored s)
     = Return false
  /\ Fanout.serverAfter (Fanout.sendNotificationToUser 7%nat stored s) = s.
Proof.
  apply (closing_first_socket_unregisters_second verify Fanout.empty
           10%nat 11%nat "token-of-7" "token-of-7" 7%nat stored).
  - reflexivity.
  - reflexivity.
  - lia.
Defined.

Lemma connect_then_close_sample :
  let s := Fanout.onClose 13%nat
             (Fanout.connection verify 13%nat "token-of-9" twoDevices) in
  Fanout.clients s = Fanout.clients twoDevices
  /\ Fanout.readyState <$> (Fanout.sockets s !! 13%nat) = Some Fanout.CLOSED
  /\ Fanout.returned (Fanout.sendNotificationToUser 9%nat stored s)
     = Return false.
Proof.
  apply (connect_then_close verify twoDevices 13%nat "token-of-9" 9%nat
           stored).
  - reflexivity.
  - vm_compute. reflexivity.
Defined.

Lemma addComment_missing_video_sample :
  Controller.addComment nat createComment findVideo (commentBy 8%nat 4%nat)
    handlers 0%nat emptyCollection =
  {| Controller.response := Controller.Failed 500 "Failed to add comment";
     Controller.db := 1%nat;
     Controller.emitted := None |}.
Proof.
  apply (addComment_missing_video nat createComment findVideo
           (commentBy 8%nat 4%nat) handlers 0%nat 1%nat 0%nat emptyCollection).
  - reflexivity.
  - reflexivity.
Defined.

Lemma addComment_answers_created_sample :
  Controller.response
    (Controller.addComment nat createComment findVideo (commentBy 8%nat 3%nat)
       handlers 0%nat emptyCollection) = Controller.Created 0%nat
  /\ Controller.db
       (Controller.addComment nat createComment findVideo
          (commentBy 8%nat 3%nat) handlers 0%nat emptyCollection) = 1%nat
  /\ Events.called <$>
       Controller.emitted
         (Controller.addComment nat createComment findVideo
            (commentBy 8%nat 3%nat) handlers 0%nat emptyCollection) =
     Some (length [Events.onNewComment storeDown]).
Proof.
  apply (addComment_answers_created nat createComment findVideo
           (commentBy 8%nat 3%nat) handlers 0%nat 1%nat 0%nat
           (Some (Events.VObjectId (Events.Obj 2) 7%nat)) emptyCollection
           [Events.onNewComment storeDown]).
  - reflexivity.
  - reflexivity.
  - reflexivity.
Defined.

Lemma addComment_listener_throws_sample :
  Controller.response
    (Controller.addComment nat createComment findVideo (commentBy 8%nat 3%nat)
       throwing 0%nat emptyCollection) =
  Controller.Failed 500 "Failed to add comment"
  /\ Controller.db
       (Controller.addComment nat createComment findVideo
          (commentBy 8%nat 3%nat) throwing 0%nat emptyCollection) = 1%nat.
Proof.
  apply (addComment_listener_throws nat createComment findVideo
           (commentBy 8%nat 3%nat) throwing 0%nat 1%nat 0%nat
           (Some (Events.VObjectId (Events.Obj 2) 7%nat)) emptyCollection [] [quiet] thrower
           (OtherError "boom")).
  - reflexivity.
  - reflexivity.
  - reflexivity.
  - constructor.
  - intros c0. reflexivity.
Defined.

Lemma addComment_by_owner_sample :
  Controller.response
    (Controller.addComment nat createComment findVideo (commentBy 7%nat 3%nat)
       (Events.registerEventHandlers Examples.createNotification ∅) 0%nat
       emptyCollection) = Controller.Created 0%nat
  /\ exists task message,
       Events.pending <$>
         Controller.emitted
           (Controller.addComment nat createComment findVideo
              (commentBy 7%nat 3%nat)
              (Events.registerEventHandlers Examples.createNotification ∅)
              0%nat emptyCollection) =
       Some [task]
       /\ forall c',
            task c' =
            Examples.createNotification
              {| Events.recipient :=
                   Some (Events.VObjectId (Events.Obj 2) 7%nat);
                 Events.sender :=
                   Some (Events.VObjectId (Events.Obj 1) 7%nat);
                 Events.type := "COMMENT";
                 Events.resourceId :=
                   Controller.videoId (commentBy 7%nat 3%nat);
                 Events.resourceType := "VIDEO";
                 Events.message := message |} c'.
Proof.
  apply (addComment_by_owner nat createComment findVideo
           Examples.createNotification (commentBy 7%nat 3%nat) 0%nat 1%nat
           0%nat emptyCollection 7%nat (Events.Obj 1) (Events.Obj 2)
           "Great video").
  - reflexivity.
  - reflexivity.
  - reflexivity.
  - discriminate.
  - reflexivity.
Defined.

Lemma default_preferences_permissions_sample :
  Preferences.shouldDeliverToChannel (Some (Defaults.defaultPreferences 7%nat))
    "likes" "email" =
  Return
    ((bool_decide ("likes" = "comments")
      || bool_decide ("likes" = "subscriptions"))
     && (bool_decide ("email" = "inApp") || bool_decide ("email" = "email")
         || bool_decide ("email" = "push"))
     || bool_decide ("likes" = "likes")
        && bool_decide ("email" = "inApp")).
Proof.
  apply (default_preferences_permissions 7%nat "likes" "email").
  apply (bool_decide_unpack _). vm_compute. reflexivity.
Defined.

(** ** Grouping and the unread count *)

Lemma byId_insert upd l i d :
  NoDup (List.map _id l) -> l !! i = Some d ->
  Replace.byId (_id d) upd l = <[i := upd d]> l.
Proof.
  intros Hnodup Hi. apply list_eq. intros j.
  unfold Replace.byId. change (List.map ?f ?l) with (f <$> l).
  rewrite list_lookup_fmap.
  destruct (decide (i = j)) as [<-|Hne].
  - rewrite Hi. simpl. rewrite bool_decide_eq_true_2 by done.
    rewrite list_lookup_insert_eq; [done|]. by eapply lookup_lt_Some.
  - rewrite list_lookup_insert_ne by done.
    destruct (l !! j) as [x|] eqn:Hj; [|done]. simpl.
    rewrite bool_decide_eq_false_2; [done|].
    intros Hid. apply Hne.
    eapply NoDup_lookup; [exact Hnodup| |].
    + rewrite list_lookup_fmap, Hi. reflexivity.
    + rewrite list_lookup_fmap, Hj. simpl. by rewrite Hid.
Qed.

(** X20: folding an event into the row of its key makes the recipient's
    unread count grow by one when the row had been read, and leaves the
    count as it is when the row was still unread. *)
Theorem grouping_renotifies
    (clk : Clock) (userId : ObjectId) (n : Candidate.t) (c : Collection)
    (d : Notification) :
  wf c ->
  Candidate.recipient n = userId ->
  rowsWithKey (keyOf n) c = [d] ->
  atFind clk - groupWindow <= createdAt d ->
  ReadStatus.getUnreadCount userId (groupSimilarNotifications clk userId n c).2
  = (ReadStatus.getUnreadCount userId c + (if isRead d then 1 else 0))%nat.
Proof.
  intros Hwf Hrec Hrows Hwin.
  rewrite (group_into_only clk userId n c d) by done. cbn [snd].
  destruct (filter_singleton_elem _ _ _ Hrows) as [Hin Hkey].
  apply list_elem_of_lookup in Hin as [i Hi].
  destruct Hwf as [Hnodup _].
  unfold ReadStatus.getUnreadCount, countDocuments. cbn [docs].
  rewrite (byId_insert _ (docs c) i d Hnodup Hi).
  set (d' := groupedUpdate (atWrite clk) d (Candidate.type n) d).
  pose proof (count_insert (ReadStatus.unreadOf userId) (docs c) i d d' Hi)
    as Hcount.
  assert (Hd : recipient d = userId).
  { unfold hasKey, keyOf in Hkey. apply bool_decide_eq_true in Hkey.
    injection Hkey as -> _ _ _. done. }
  assert (Hnew : ReadStatus.unreadOf userId d' = true).
  { unfold ReadStatus.unreadOf. subst d'. simpl.
    by rewrite bool_decide_eq_true_2. }
  assert (Hold : ReadStatus.unreadOf userId d = negb (isRead d)).
  { unfold ReadStatus.unreadOf. by rewrite bool_decide_eq_true_2. }
  rewrite Hnew, Hold in Hcount.
  destruct (isRead d); simpl in *; lia.
Qed.

Lemma grouping_renotifies_sample :
  ReadStatus.getUnreadCount 7%nat
    (groupSimilarNotifications soon 7%nat (comment "Nice") oneStored).2
  = (ReadStatus.getUnreadCount 7%nat oneStored
     + (if isRead stored then 1 else 0))%nat.
Proof.
  apply (grouping_renotifies soon 7%nat (comment "Nice") oneStored stored).
  - exact wf_oneStored.
  - reflexivity.
  - reflexivity.
  - simpl. unfold groupWindow. lia.
Defined.
